(** * mcdns-updater: a shallow embedding of [mcdns_updater.py]

    The program probes a list of Minecraft server nodes, scores each one
    as [bandwidth ** 2 / latency], picks the best one with [max] and
    publishes SRV records through the Cloudflare API.

    The embedding follows the source function by function.  Python
    exceptions are values of [exn]; effectful code lives in the monad
    [M], which threads a [World] (both output streams, the provider's
    zones and records, the log of the requests made) and keeps the world
    reached when an exception is raised.  What the program cannot know,
    the content of [config.json], the outcome of every probe and whether
    the provider fails a request, is read from an [Env].  Python's
    [float] is IEEE 754 binary64, taken from [SpecFloat]; Python's [int]
    is [Z]; [assert] statements are executed (the interpreter does not
    run with [-O]).

    Definitions come first, then the properties, each claim's theorem
    under a comment that names it. *)

From Stdlib Require Import ZArith Bool Ascii String List Lia.
From Stdlib Require Import SpecFloat.
From stdpp Require Import base decidable option list strings gmap.

Local Open Scope Z_scope.

(** ** Python exceptions *)

Inductive exn_class :=
  | AssertionError
  | ValueError
  | ZeroDivisionError
  | OverflowError
  | OSError             (* open(), socket errors raised by the probe *)
  | TimeoutError
  | ConnectionError
  | ProtocolError       (* malformed reply to the status ping *)
  | ValidationError     (* pydantic *)
  | APIError            (* cloudflare *)
  | KeyboardInterrupt.  (* a BaseException that is not an Exception *)

Record exn := Raise { exn_class_of : exn_class; exn_msg : string }.

(** [isinstance(ex, Exception)] *)
Definition is_Exception (ex : exn) : bool :=
  match exn_class_of ex with
  | KeyboardInterrupt => false
  | _ => true
  end.

Inductive result (A : Type) :=
  | Ok (a : A)
  | Err (ex : exn).
Arguments Ok {A} a.
Arguments Err {A} ex.

Definition is_Ok {A} (r : result A) : bool :=
  match r with Ok _ => true | Err _ => false end.

(** ** Python floats (binary64) *)

Module PyFloat.

Definition prec : Z := 53.
Definition emax : Z := 1024.

Definition t := spec_float.

Definition zero : t := S754_zero false.

Definition is_nan (f : t) : bool :=
  match f with S754_nan => true | _ => false end.

(** [float(z)] for a Python int: round to nearest, ties to even;
    [OverflowError] when no finite double is close enough. *)
Definition of_int (z : Z) : result t :=
  match binary_normalize prec emax z 0 false with
  | S754_infinity _ =>
      Err (Raise OverflowError "int too large to convert to float")
  | f => Ok f
  end.

Definition eqb (a b : t) : bool := SFeqb a b.
Definition ltb (a b : t) : bool := SFltb a b.
Definition leb (a b : t) : bool := SFleb a b.
(** [a > b] *)
Definition gtb (a b : t) : bool := SFltb b a.

(** [a / b] on two floats: Python raises on a zero divisor (of either
    sign) before dividing. *)
Definition truediv (a b : t) : result t :=
  if eqb b zero
  then Err (Raise ZeroDivisionError "float division by zero")
  else Ok (SFdiv prec emax a b).

(** [z / b] for an int [z] and a float [b]: the int is converted
    first, then the floats are divided. *)
Definition int_truediv (z : Z) (b : t) : result t :=
  match of_int z with
  | Err ex => Err ex
  | Ok a => truediv a b
  end.

(** The double nearest to an integer literal, for writing constants. *)
Definition lit (z : Z) : t := binary_normalize prec emax z 0 false.

End PyFloat.

(** ** Scores

    [check_preference] returns the int [0] on a failed probe and a float
    otherwise. *)

Inductive score :=
  | IntZero                       (* the literal [0] *)
  | Float (f : PyFloat.t).

(** Python compares an int with a float by value; [0] is the double
    [0.0] exactly. *)
Definition score_value (s : score) : PyFloat.t :=
  match s with
  | IntZero => PyFloat.zero
  | Float f => f
  end.

(** [a > b] *)
Definition score_gt (a b : score) : bool :=
  PyFloat.gtb (score_value a) (score_value b).

(** [a == 0] *)
Definition score_eq0 (a : score) : bool :=
  PyFloat.eqb (score_value a) PyFloat.zero.

(** [0 <= a]: false for negative numbers and for NaN. *)
Definition score_nonneg (a : score) : bool :=
  PyFloat.leb PyFloat.zero (score_value a).

(** [0 < a] *)
Definition score_pos (a : score) : bool :=
  PyFloat.ltb PyFloat.zero (score_value a).

(** [a <= b] *)
Definition score_le (a b : score) : bool :=
  PyFloat.leb (score_value a) (score_value b).

(** ** Python strings

    A [str] is modelled as a [string]; the operations below are the ones
    the program and [ipaddress] call. *)

Module Str.

Local Open Scope string_scope.

(** [s.split(sep)] for a one-character separator: never returns an
    empty list, [empty.split(sep)] is the list holding one empty
    string. *)
Fixpoint split (sep : ascii) (s : string) : list string :=
  match s with
  | EmptyString => [EmptyString]
  | String c rest =>
      if Ascii.eqb c sep then EmptyString :: split sep rest
      else match split sep rest with
           | hd :: tl => String c hd :: tl
           | [] => [String c EmptyString]
           end
  end.

(** [c in s] *)
Fixpoint contains (c : ascii) (s : string) : bool :=
  match s with
  | EmptyString => false
  | String a rest => Ascii.eqb a c || contains c rest
  end.

(** [s.partition(sep)]: the text before the first [sep], whether [sep]
    was found, and the text after it. *)
Fixpoint partition (sep : ascii) (s : string) : string * bool * string :=
  match s with
  | EmptyString => (EmptyString, false, EmptyString)
  | String c rest =>
      if Ascii.eqb c sep then (EmptyString, true, rest)
      else let '(a, found, b) := partition sep rest in (String c a, found, b)
  end.

Definition all (p : ascii -> bool) (s : string) : bool :=
  forallb p (list_ascii_of_string s).

(** [s.endswith(suffix)] *)
Definition endswith (s suffix : string) : bool :=
  let n := String.length s in
  let m := String.length suffix in
  (m <=? n)%nat && String.eqb (substring (n - m) m s) suffix.

(** [s.removesuffix(suffix)]: one occurrence is removed, and only when
    [suffix] is not empty. *)
Definition removesuffix (s suffix : string) : string :=
  if negb (String.eqb suffix EmptyString) && endswith s suffix
  then substring 0 (String.length s - String.length suffix) s
  else s.

(** [sep.join(parts)] *)
Definition join (sep : string) (parts : list string) : string :=
  String.concat sep parts.

End Str.

(** ** [ipaddress.ip_address]

    The standard-library parser the host validator calls; it is not part
    of the repository and is transcribed from CPython's [ipaddress.py]
    (error messages are shortened: the originals quote the input). *)

Module ipaddress.

Local Open Scope string_scope.

Inductive address :=
  | IPv4Address (ip : Z)
  | IPv6Address (ip : Z) (scope_id : option string).

Definition AddressValueError (msg : string) : exn := Raise ValueError msg.

Definition is_digit (c : ascii) : bool :=
  let n := nat_of_ascii c in (48 <=? n)%nat && (n <=? 57)%nat.

(** membership in [_HEX_DIGITS] *)
Definition is_hex_digit (c : ascii) : bool :=
  let n := nat_of_ascii c in
  ((48 <=? n) && (n <=? 57) || (65 <=? n) && (n <=? 70)
   || (97 <=? n) && (n <=? 102))%nat.

Definition hex_value (c : ascii) : Z :=
  let n := Z.of_nat (nat_of_ascii c) in
  (if n <=? 57 then n - 48 else if n <=? 70 then n - 55 else n - 87)%Z.

(** [int(s, base)] on a string already known to hold digits only. *)
Definition int_of_digits (base : Z) (s : string) : Z :=
  fold_left (fun acc c => (acc * base + hex_value c)%Z)
            (list_ascii_of_string s) 0%Z.

Definition _parse_octet (octet_str : string) : result Z :=
  if String.eqb octet_str "" then
    Err (Raise ValueError "Empty octet not permitted")
  else if negb (Str.all is_digit octet_str) then
    Err (Raise ValueError "Only decimal digits permitted")
  else if (3 <? String.length octet_str)%nat then
    Err (Raise ValueError "At most 3 characters permitted")
  else if negb (String.eqb octet_str "0")
          && match octet_str with String "0" _ => true | _ => false end then
    Err (Raise ValueError "Leading zeros are not permitted")
  else
    let octet_int := int_of_digits 10 octet_str in
    if (255 <? octet_int)%Z then
      Err (Raise ValueError "Octet > 255 not permitted")
    else Ok octet_int.

Fixpoint parse_all (f : string -> result Z) (l : list string) : result (list Z) :=
  match l with
  | [] => Ok []
  | x :: rest =>
      match f x with
      | Err ex => Err ex
      | Ok v => match parse_all f rest with
                | Err ex => Err ex
                | Ok vs => Ok (v :: vs)
                end
      end
  end.

(** [int.from_bytes(octets, 'big')] and the hextet loop alike: shift
    the accumulator and or the next group in. *)
Definition pack (bits : Z) (acc : Z) (groups : list Z) : Z :=
  fold_left (fun a g => Z.lor (Z.shiftl a bits) g) groups acc.

Definition v4_int_from_string (ip_str : string) : result Z :=
  if String.eqb ip_str "" then Err (AddressValueError "Address cannot be empty")
  else
    let octets := Str.split "." ip_str in
    if negb (length octets =? 4)%nat then
      Err (AddressValueError "Expected 4 octets")
    else match parse_all _parse_octet octets with
         | Err ex => Err (AddressValueError (exn_msg ex))
         | Ok vs => Ok (pack 8 0 vs)
         end.

(** [IPv4Address(addr)._ip] for a [str] argument *)
Definition v4_init (addr : string) : result Z :=
  if Str.contains "/" addr then
    Err (AddressValueError "Unexpected '/'")
  else v4_int_from_string addr.

Definition _parse_hextet (hextet_str : string) : result Z :=
  if negb (Str.all is_hex_digit hextet_str) then
    Err (Raise ValueError "Only hex digits permitted")
  else if (4 <? String.length hextet_str)%nat then
    Err (Raise ValueError "At most 4 characters permitted")
  else if String.eqb hextet_str "" then
    Err (Raise ValueError "invalid literal for int() with base 16")
  else Ok (int_of_digits 16 hextet_str).

Definition hex_digit (d : Z) : ascii :=
  ascii_of_nat (Z.to_nat (if d <? 10 then 48 + d else 87 + d)%Z).

Fixpoint drop_zeros (ds : list Z) : list Z :=
  match ds with
  | d :: rest => if Z.eqb d 0 then drop_zeros rest else ds
  | [] => []
  end.

(** ['%x' % n] for [0 <= n < 65536] *)
Definition hex_of (n : Z) : string :=
  let ds := [Z.shiftr n 12; Z.land (Z.shiftr n 8) 15;
             Z.land (Z.shiftr n 4) 15; Z.land n 15] in
  match drop_zeros ds with
  | [] => "0"
  | ds' => string_of_list_ascii (map hex_digit ds')
  end.

Definition _HEXTET_COUNT : nat := 8.

(** The loop looking for one empty part strictly between the two ends. *)
Definition find_skip (parts : list string) : result (option nat) :=
  fold_left
    (fun acc i =>
       match acc with
       | Err ex => Err ex
       | Ok skip_index =>
           if String.eqb (nth i parts "") "" then
             match skip_index with
             | Some _ => Err (AddressValueError "At most one '::' permitted")
             | None => Ok (Some i)
             end
           else Ok skip_index
       end)
    (seq 1 (length parts - 2)) (Ok None).

Definition last_part (parts : list string) : string :=
  nth (length parts - 1) parts "".

Definition v6_int_from_string (ip_str : string) : result Z :=
  if String.eqb ip_str "" then Err (AddressValueError "Address cannot be empty")
  else
    let parts := Str.split ":" ip_str in
    if (length parts <? 3)%nat then
      Err (AddressValueError "At least 3 parts expected")
    else
      let with_suffix :=
        if Str.contains "." (last_part parts) then
          match v4_init (last_part parts) with
          | Err ex => Err (AddressValueError (exn_msg ex))
          | Ok ipv4_int =>
              Ok (removelast parts
                    ++ [hex_of (Z.land (Z.shiftr ipv4_int 16) 65535);
                        hex_of (Z.land ipv4_int 65535)])%list
          end
        else Ok parts in
      match with_suffix with
      | Err ex => Err ex
      | Ok parts =>
          if (_HEXTET_COUNT + 1 <? length parts)%nat then
            Err (AddressValueError "At most 8 colons permitted")
          else
            match find_skip parts with
            | Err ex => Err ex
            | Ok skip =>
                let first_empty := String.eqb (nth 0 parts "") "" in
                let last_empty := String.eqb (last_part parts) "" in
                let layout :=
                  match skip with
                  | Some skip_index =>
                      let parts_hi := skip_index in
                      let parts_lo := (length parts - skip_index - 1)%nat in
                      if first_empty && negb (parts_hi - 1 =? 0)%nat then
                        Err (AddressValueError "Leading ':' only permitted as part of '::'")
                      else if last_empty && negb (parts_lo - 1 =? 0)%nat then
                        Err (AddressValueError "Trailing ':' only permitted as part of '::'")
                      else
                        let parts_hi := if first_empty then (parts_hi - 1)%nat else parts_hi in
                        let parts_lo := if last_empty then (parts_lo - 1)%nat else parts_lo in
                        if (_HEXTET_COUNT <? parts_hi + parts_lo + 1)%nat then
                          Err (AddressValueError "Expected at most 7 other parts with '::'")
                        else Ok (parts_hi, parts_lo,
                                 (_HEXTET_COUNT - (parts_hi + parts_lo))%nat)
                  | None =>
                      if negb (length parts =? _HEXTET_COUNT)%nat then
                        Err (AddressValueError "Exactly 8 parts expected without '::'")
                      else if first_empty then
                        Err (AddressValueError "Leading ':' only permitted as part of '::'")
                      else if last_empty then
                        Err (AddressValueError "Trailing ':' only permitted as part of '::'")
                      else Ok (length parts, 0%nat, 0%nat)
                  end in
                match layout with
                | Err ex => Err ex
                | Ok (parts_hi, parts_lo, parts_skipped) =>
                    match parse_all _parse_hextet (firstn parts_hi parts),
                          parse_all _parse_hextet
                            (skipn (length parts - parts_lo) parts) with
                    | Ok his, Ok los =>
                        Ok (pack 16
                              (Z.shiftl (pack 16 0 his)
                                        (16 * Z.of_nat parts_skipped)%Z)
                              los)
                    | Err ex, _ | _, Err ex => Err (AddressValueError (exn_msg ex))
                    end
                end
            end
      end.

Definition _split_scope_id (ip_str : string) : result (string * option string) :=
  let '(addr, sep, scope_id) := Str.partition "%" ip_str in
  if negb sep then Ok (addr, None)
  else if String.eqb scope_id "" || Str.contains "%" scope_id then
    Err (AddressValueError "Invalid IPv6 address")
  else Ok (addr, Some scope_id).

(** [IPv6Address(addr)] for a [str] argument *)
Definition v6_init (addr : string) : result address :=
  if Str.contains "/" addr then
    Err (AddressValueError "Unexpected '/'")
  else match _split_scope_id addr with
       | Err ex => Err ex
       | Ok (addr_str, scope_id) =>
           match v6_int_from_string addr_str with
           | Err ex => Err ex
           | Ok ip => Ok (IPv6Address ip scope_id)
           end
       end.

(** [ipaddress.ip_address(addr)]: IPv4 first, then IPv6, else
    [ValueError]. *)
Definition ip_address (addr : string) : result address :=
  match v4_init addr with
  | Ok ip => Ok (IPv4Address ip)
  | Err _ =>
      match v6_init addr with
      | Ok a => Ok a
      | Err _ =>
          Err (Raise ValueError
                 "does not appear to be an IPv4 or IPv6 address")
      end
  end.

End ipaddress.

(** ** Data model: the two pydantic models *)

(** pydantic turns the [AssertionError] or [ValueError] of a validator
    into its [ValidationError]; other exceptions pass through. *)
Definition validation_error (ex : exn) : exn :=
  match exn_class_of ex with
  | AssertionError | ValueError => Raise ValidationError (exn_msg ex)
  | _ => ex
  end.

Definition field_validator {A} (check : A -> result A) (val : A) : result A :=
  match check val with
  | Ok v => Ok v
  | Err ex => Err (validation_error ex)
  end.

Module Node.

Record t := mk {
  subdomain : string;
  host : string;
  port : Z;            (* default 25565 *)
  bandwidth : Z
}.

(** The [host] validator: the value is kept when [ip_address] raises
    [ValueError]; when it parses, control reaches [assert False]. *)
Definition check_host (val : string) : result string :=
  match ipaddress.ip_address val with
  | Err ex =>
      match exn_class_of ex with
      | ValueError => Ok val
      | _ => Err ex
      end
  | Ok _ => Err (Raise AssertionError "IP address is not allowed for SRV record.")
  end.

(** Validation of one node whose fields already have their types. *)
Definition validate (raw : t) : result t :=
  match field_validator check_host (host raw) with
  | Ok h => Ok (mk (subdomain raw) h (port raw) (bandwidth raw))
  | Err ex => Err ex
  end.

End Node.

Module Config.

Record t := mk {
  api_token : string;
  zone_id : string;
  subdomain : string;
  nodes : list Node.t;
  timeout : PyFloat.t    (* default 5.0 *)
}.

(** The [nodes] validator: [len(set(subdomains)) == len(subdomains)]. *)
Definition check_nodes (val : list Node.t) : result (list Node.t) :=
  let subdomains := map Node.subdomain val in
  if bool_decide (size (list_to_set subdomains : gset string) = length subdomains)
  then Ok val
  else Err (Raise AssertionError "conflict subdomains found.").

Fixpoint validate_nodes (raw : list Node.t) : result (list Node.t) :=
  match raw with
  | [] => Ok []
  | n :: rest =>
      match Node.validate n, validate_nodes rest with
      | Ok n', Ok rest' => Ok (n' :: rest')
      | Err ex, _ | _, Err ex => Err ex
      end
  end.

(** Validation of a configuration whose fields already have their
    types: every node first, then the [nodes] validator ("after"
    mode). *)
Definition validate (raw : t) : result t :=
  match validate_nodes (nodes raw) with
  | Err ex => Err ex
  | Ok ns =>
      match field_validator check_nodes ns with
      | Err ex => Err ex
      | Ok ns' => Ok (mk (api_token raw) (zone_id raw) (subdomain raw) ns' (timeout raw))
      end
  end.

End Config.

(** ** [concat_domain] *)

Definition concat_domain (parts : list string) : string :=
  Str.join "." (map (fun part => Str.removesuffix part ".") parts).

(** ** The provider's side: zones and SRV records *)

Module Data.
Record t := mk {
  target : string;
  port : Z;
  priority : Z;
  weight : Z
}.
End Data.

Module Zone.
Record t := mk { name : string }.
End Zone.

Module DnsRecord.
Record t := mk {
  id : nat;
  zone_id : string;
  name : string;
  type : string;
  data : Data.t
}.
End DnsRecord.

Record Remote := mkRemote {
  (** zone id to the reply of [zones.get]: absent ids are an API error, a
      listed id replies with a zone or with nothing *)
  zones : list (string * option Zone.t);
  records : list DnsRecord.t;
  next_id : nat
}.

(** One entry per use of the client; [api_log] holds them oldest first. *)
Inductive api_event :=
  | ClientEnter (api_token : string)
  | ClientExit
  | ZonesGet (zone_id : string)
  | RecordsList (zone_id name type : string) (per_page : nat)
  | RecordsUpdate (dns_record_id : nat) (zone_id name : string)
                  (data : Data.t) (type : string)
  | RecordsCreate (zone_id name : string) (data : Data.t) (type : string).

Definition is_mutation (ev : api_event) : bool :=
  match ev with
  | RecordsUpdate _ _ _ _ _ | RecordsCreate _ _ _ _ => true
  | _ => false
  end.

(** ** Output *)

Inductive line :=
  | Tested (prefs : list (Node.t * score))
      (* one [print] of the joined "tested: node=..., pref=..." lines *)
  | Selected (selected : Node.t)
  | Updating (fqdn host : string) (port : Z)
  | Updated (fqdn : string).

(** ** The world and the environment *)

Record World := mkWorld {
  stdout : list line;
  stderr : list string;
  pings : nat;                 (* probes sent so far *)
  remote : Remote;
  api_log : list api_event
}.

Record Env := mkEnv {
  (** [config.json] read and decoded into typed fields, or the error of
      [open] or of the decoding *)
  config_file : result Config.t;
  (** outcome of the [k]-th probe of the run, sent to host and port with
      the given timeout: a latency, or the exception raised *)
  ping : nat -> string -> Z -> PyFloat.t -> result PyFloat.t;
  (** whether the provider fails the [k]-th request of the run *)
  api_fault : nat -> bool
}.

Definition M (A : Type) : Type := World -> result A * World.

Definition ret {A} (a : A) : M A := fun w => (Ok a, w).
Definition raise {A} (ex : exn) : M A := fun w => (Err ex, w).
Definition bind {A B} (m : M A) (k : A -> M B) : M B :=
  fun w => match m w with
           | (Ok a, w') => k a w'
           | (Err ex, w') => (Err ex, w')
           end.
Definition lift {A} (r : result A) : M A := fun w => (r, w).

(** [try: m] seen from the handler: the outcome as a value. *)
Definition try {A} (m : M A) : M (result A) :=
  fun w => let '(r, w') := m w in (Ok r, w').

Declare Scope py_scope.
Delimit Scope py_scope with py.
Notation "x <- m ;; k" := (bind m (fun x => k))
  (at level 100, m at next level, right associativity) : py_scope.
Notation "m ;; k" := (bind m (fun _ => k))
  (at level 100, right associativity) : py_scope.
Local Open Scope py_scope.

Definition print (l : line) : M unit :=
  fun w => (Ok tt, mkWorld (stdout w ++ [l]) (stderr w) (pings w) (remote w) (api_log w)).

(** [eprint]: [print] to standard error, the arguments joined by one
    space. *)
Definition eprint (args : list string) : M unit :=
  fun w => (Ok tt, mkWorld (stdout w) (stderr w ++ [Str.join " " args])
                           (pings w) (remote w) (api_log w)).

(** [for x in xs: body(x)] *)
Fixpoint for_each {A} (xs : list A) (body : A -> M unit) : M unit :=
  match xs with
  | [] => ret tt
  | x :: rest => body x ;; for_each rest body
  end.

(** [[f(x) for x in xs]] *)
Fixpoint comprehension {A B} (f : A -> M B) (xs : list A) : M (list B) :=
  match xs with
  | [] => ret []
  | x :: rest => y <- f x ;; ys <- comprehension f rest ;; ret (y :: ys)
  end.

(** [max(items, key=key)]: the first item is kept until a later one has
    a strictly greater key; [ValueError] on an empty sequence. *)
Definition max_step {A K} (gt : K -> K -> bool) (key : A -> K) (best item : A) : A :=
  if gt (key item) (key best) then item else best.

Definition py_max {A K} (gt : K -> K -> bool) (key : A -> K) (items : list A) : result A :=
  match items with
  | [] => Err (Raise ValueError "max() iterable argument is empty")
  | first :: rest => Ok (fold_left (max_step gt key) rest first)
  end.

(** ** The external collaborators: probe and provider client

    Neither [mcstatus] nor the Cloudflare service is part of the
    repository.  A probe answers what the environment says.  The
    provider is modelled by what its four requests do to a list of
    records: the listing returns the stored records of the zone with the
    exact name and type, oldest first, cut to the page size; an update
    overwrites the record of the given identity; a create stores a new
    record under the next identity.  Any request fails when the
    environment says so. *)

Module JavaServer.

Record t := mk { host : string; port : Z; timeout : PyFloat.t }.

(** [server.ping()]: one probe; its outcome is the environment's. *)
Definition ping (env : Env) (server : t) : M PyFloat.t :=
  fun w =>
    (env.(ping) (pings w) (host server) (port server) (timeout server),
     mkWorld (stdout w) (stderr w) (S (pings w)) (remote w) (api_log w)).

End JavaServer.

Module Cloudflare.

Record t := mk { api_token : string }.

Definition log (ev : api_event) : M unit :=
  fun w => (Ok tt, mkWorld (stdout w) (stderr w) (pings w) (remote w)
                           (api_log w ++ [ev])).

(** One request: it is logged, then it fails if the environment says
    so, and otherwise the provider serves it. *)
Definition request {A} (env : Env) (ev : api_event)
    (serve : Remote -> result A * Remote) : M A :=
  fun w =>
    let k := length (api_log w) in
    let log' := api_log w ++ [ev] in
    if env.(api_fault) k then
      (Err (Raise APIError "request failed"),
       mkWorld (stdout w) (stderr w) (pings w) (remote w) log')
    else
      let '(r, remote') := serve (remote w) in
      (r, mkWorld (stdout w) (stderr w) (pings w) remote' log').

Fixpoint lookup_zone (zone_id : string) (zs : list (string * option Zone.t))
    : option (option Zone.t) :=
  match zs with
  | [] => None
  | (k, z) :: rest => if String.eqb k zone_id then Some z else lookup_zone zone_id rest
  end.

(** [cloudflare.zones.get(zone_id=...)] *)
Definition zones_get (env : Env) (c : t) (zone_id : string) : M (option Zone.t) :=
  request env (ZonesGet zone_id)
    (fun r => match lookup_zone zone_id (zones r) with
              | Some z => (Ok z, r)
              | None => (Err (Raise APIError "zone not found"), r)
              end).

Definition matches (zone_id name type : string) (r : DnsRecord.t) : bool :=
  String.eqb (DnsRecord.zone_id r) zone_id
  && String.eqb (DnsRecord.name r) name
  && String.eqb (DnsRecord.type r) type.

(** [cloudflare.dns.records.list(zone_id, name exact, type, per_page)]:
    the field [result] of the first page. *)
Definition records_list (env : Env) (c : t) (zone_id name type : string)
    (per_page : nat) : M (list DnsRecord.t) :=
  request env (RecordsList zone_id name type per_page)
    (fun r =>
       (Ok (firstn per_page (List.filter (matches zone_id name type) (records r))), r)).

Definition owns (dns_record_id : nat) (zone_id : string) (r : DnsRecord.t) : bool :=
  Nat.eqb (DnsRecord.id r) dns_record_id && String.eqb (DnsRecord.zone_id r) zone_id.

(** [cloudflare.dns.records.update(dns_record_id, zone_id, name, data,
    type)]: the record keeps its identity, everything else is
    overwritten. *)
Definition records_update (env : Env) (c : t) (dns_record_id : nat)
    (zone_id name : string) (data : Data.t) (type : string) : M unit :=
  request env (RecordsUpdate dns_record_id zone_id name data type)
    (fun r =>
       if existsb (owns dns_record_id zone_id) (records r) then
         (Ok tt,
          mkRemote (zones r)
            (map (fun x => if owns dns_record_id zone_id x
                           then DnsRecord.mk dns_record_id zone_id name type data
                           else x)
                 (records r))
            (next_id r))
       else (Err (Raise APIError "record not found"), r)).

(** [cloudflare.dns.records.create(zone_id, name, data, type)]: a new
    record under a fresh identity. *)
Definition records_create (env : Env) (c : t)
    (zone_id name : string) (data : Data.t) (type : string) : M unit :=
  request env (RecordsCreate zone_id name data type)
    (fun r =>
       (Ok tt,
        mkRemote (zones r)
          (records r ++ [DnsRecord.mk (next_id r) zone_id name type data])
          (S (next_id r)))).

(** [with Cloudflare(api_token=...) as cloudflare: body]: the client is
    closed on every way out of the block. *)
Definition scoped {A} (api_token : string) (body : t -> M A) : M A :=
  log (ClientEnter api_token) ;;
  r <- try (body (mk api_token)) ;;
  log ClientExit ;;
  lift r.

End Cloudflare.

(** ** The program *)

Section Program.

Context (env : Env).

Definition read_config : M Config.t :=
  match env.(config_file) with
  | Err ex => raise ex
  | Ok content => lift (Config.validate content)
  end.

Definition check_preference (node : Node.t) (timeout : PyFloat.t) : M score :=
  let server := JavaServer.mk (Node.host node) (Node.port node) timeout in
  r <- try (JavaServer.ping env server) ;;
  match r with
  | Err ex =>
      if is_Exception ex then
        eprint ["ping failed:"%string; exn_msg ex] ;;
        ret IntZero
      else raise ex
  | Ok lat =>
      pref <- lift (PyFloat.int_truediv (Node.bandwidth node ^ 2) lat) ;;
      ret (Float pref)
  end.

Definition update_record (cloudflare : Cloudflare.t)
    (zone_id subdomain host : string) (port : Z) : M unit :=
  zone <- Cloudflare.zones_get env cloudflare zone_id ;;
  match zone with
  | None => raise (Raise AssertionError "got none when get zone info.")
  | Some zone =>
      let fqdn := concat_domain ["_minecraft._tcp"%string; subdomain; Zone.name zone] in
      print (Updating fqdn host port) ;;
      records <- Cloudflare.records_list env cloudflare zone_id fqdn "SRV" 1 ;;
      let commit_dns_record :=
        match records with
        | first :: _ =>
            Cloudflare.records_update env cloudflare (DnsRecord.id first)
        | [] => Cloudflare.records_create env cloudflare
        end in
      let data := Data.mk host port 0 0 in
      commit_dns_record zone_id fqdn data "SRV"%string ;;
      print (Updated fqdn)
  end.

(** The element of the list comprehension of [main]:
    [(node, check_preference(node, config.timeout))]. *)
Definition probe_one (config : Config.t) (node : Node.t) : M (Node.t * score) :=
  pref <- check_preference node (Config.timeout config) ;;
  ret (node, pref).

(** The list comprehension of [main]: every node with its score. *)
Definition probe_all (config : Config.t) : M (list (Node.t * score)) :=
  comprehension (probe_one config) (Config.nodes config).

(** The body of the [with] block of [main]. *)
Definition publish (config : Config.t) (selected : Node.t)
    (cloudflare : Cloudflare.t) : M unit :=
  let update := update_record cloudflare (Config.zone_id config) in
  for_each (Config.nodes config)
    (fun node =>
       let subdomain := concat_domain [Node.subdomain node; Config.subdomain config] in
       update subdomain (Node.host node) (Node.port node)) ;;
  update (Config.subdomain config) (Node.host selected) (Node.port selected).

Definition main : M unit :=
  config <- read_config ;;
  prefs <- probe_all config ;;
  print (Tested prefs) ;;
  best <- lift (py_max score_gt snd prefs) ;;
  let '(selected, pref) := best in
  if score_eq0 pref then
    eprint ["no node available."%string]
  else
    print (Selected selected) ;;
    Cloudflare.scoped (Config.api_token config) (publish config selected).

End Program.

(** What the process reports to its caller: [main] returning is a clean
    exit, an exception reaching the top level is an error exit. *)
Definition exits_cleanly (r : result unit) : bool := is_Ok r.

Definition initial_world (r : Remote) : World := mkWorld [] [] 0%nat r [].

(** ** Vocabulary of the statements *)

(** A score that is a number: [pref == pref] in Python, false for NaN
    only. *)
Definition score_is_number (s : score) : bool :=
  negb (PyFloat.is_nan (score_value s)).

(** [SFcompare] orders two numbers by class, sign, exponent and
    mantissa; [rank] lays the same order out on triples of integers, so
    that its laws follow by linear arithmetic. *)
Definition rank (f : spec_float) : Z * Z * Z :=
  match f with
  | S754_nan => (0, 0, 0)
  | S754_zero _ => (0, 0, 0)
  | S754_infinity true => (-2, 0, 0)
  | S754_infinity false => (2, 0, 0)
  | S754_finite true m e => (-1, - e, - Zpos m)
  | S754_finite false m e => (1, e, Zpos m)
  end.

Definition lex_lt (a b : Z * Z * Z) : Prop :=
  let '(a1, a2, a3) := a in
  let '(b1, b2, b3) := b in
  a1 < b1 \/ (a1 = b1 /\ (a2 < b2 \/ (a2 = b2 /\ a3 < b3))).

(** [best], found at position [i] of the items seen so far, is not
    exceeded by any of them and exceeds all those before it. *)
Definition leads {A K} (gt : K -> K -> bool) (key : A -> K)
    (seen : list A) (i : nat) (best : A) : Prop :=
  seen !! i = Some best
  /\ (forall j x, seen !! j = Some x -> gt (key x) (key best) = false)
  /\ (forall j x, seen !! j = Some x -> (j < i)%nat -> gt (key best) (key x) = true).

(** The float is zero, a positive number or plus infinity. *)
Definition nonneg_class (f : spec_float) : bool :=
  match f with
  | S754_zero _ | S754_infinity false | S754_finite false _ _ => true
  | _ => false
  end.

(** A dotted name with an empty label has a leading dot, a doubled dot
    or a dangling dot (or is empty). *)
Definition no_empty_label (s : string) : bool :=
  forallb (fun l => negb (String.eqb l "")) (Str.split "." s).

(** [".." in s] *)
Fixpoint doubled_dot (s : string) : bool :=
  match s with
  | EmptyString => false
  | String c rest =>
      (Ascii.eqb c "." && match rest with
                          | String d _ => Ascii.eqb d "."
                          | EmptyString => false
                          end)
      || doubled_dot rest
  end.

Definition dangling_dot (s : string) : bool := Str.endswith s ".".

(** [s] without its last character when that is a dot. *)
Fixpoint strip_dot (s : string) : string :=
  match s with
  | EmptyString => EmptyString
  | String c rest =>
      match rest with
      | EmptyString => if Ascii.eqb c "." then EmptyString else s
      | _ => String c (strip_dot rest)
      end
  end.

(** The request writes an SRV record named [name] with this data. *)
Definition writes (name : string) (data : Data.t) (ev : api_event) : bool :=
  match ev with
  | RecordsUpdate _ _ n d ty | RecordsCreate _ n d ty =>
      String.eqb n name && String.eqb ty "SRV"
      && String.eqb (Data.target d) (Data.target data)
      && Z.eqb (Data.port d) (Data.port data)
      && Z.eqb (Data.priority d) (Data.priority data)
      && Z.eqb (Data.weight d) (Data.weight data)
  | _ => false
  end.

(** The per-node alias of [node] in the zone called [zone_name]. *)
Definition alias_fqdn (config : Config.t) (zone_name : string) (node : Node.t) : string :=
  concat_domain ["_minecraft._tcp"%string;
                 concat_domain [Node.subdomain node; Config.subdomain config];
                 zone_name].

Definition alias_reconciled (config : Config.t) (zone_name : string)
    (log : list api_event) (node : Node.t) : bool :=
  existsb (writes (alias_fqdn config zone_name node)
                  (Data.mk (Node.host node) (Node.port node) 0 0))
          log.

(** What [records.list] finds for a name, straight from the provider's
    state. *)
Definition listing (r : Remote) (zone_id fqdn : string) : list DnsRecord.t :=
  firstn 1 (List.filter (Cloudflare.matches zone_id fqdn "SRV") (records r)).

(** Identities are handed out in increasing order: every stored record
    was created before [next_id]. *)
Definition fresh_ids (r : Remote) : Prop :=
  Forall (fun x => (DnsRecord.id x < next_id r)%nat) (records r).

(** The provider's side of a world: its state and the requests made. *)
Definition dns_side (w : World) : Remote * list api_event := (remote w, api_log w).

(** The world after one probe that wrote nothing. *)
Definition probed (w : World) : World :=
  mkWorld (stdout w) (stderr w) (S (pings w)) (remote w) (api_log w).

Definition result_map {A B} (f : A -> B) (r : result A) : result B :=
  match r with
  | Ok a => Ok (f a)
  | Err ex => Err ex
  end.

(** ** The scenarios of the specification *)

Module Scenario.

Local Open Scope string_scope.

Definition node_a : Node.t := Node.mk "a" "a.example.com" 25565 10.
Definition node_b : Node.t := Node.mk "b" "b.example.com" 25565 5.

Definition config : Config.t :=
  Config.mk "token" "zone-1" "mc" [node_a; node_b] (PyFloat.lit 5).

Definition no_fault : nat -> bool := fun _ => false.

(** Node a answers in 2.0, node b in 1.0. *)
Definition env_up : Env :=
  mkEnv (Ok config)
        (fun _ host _ _ =>
           if String.eqb host "a.example.com" then Ok (PyFloat.lit 2)
           else Ok (PyFloat.lit 1))
        no_fault.

(** Every probe times out. *)
Definition env_down : Env :=
  mkEnv (Ok config)
        (fun _ _ _ _ => Err (Raise TimeoutError "timed out"))
        no_fault.

(** Node a times out, node b answers in 1.0. *)
Definition env_a_down : Env :=
  mkEnv (Ok config)
        (fun _ host _ _ =>
           if String.eqb host "a.example.com"
           then Err (Raise TimeoutError "timed out")
           else Ok (PyFloat.lit 1))
        no_fault.

(** A probe that reports a latency of exactly zero. *)
Definition env_zero_latency : Env :=
  mkEnv (Ok config) (fun _ _ _ _ => Ok PyFloat.zero) no_fault.

(** A configuration without nodes. *)
Definition config_empty : Config.t :=
  Config.mk "token" "zone-1" "mc" [] (PyFloat.lit 5).
Definition env_empty : Env :=
  mkEnv (Ok config_empty)
        (fun _ _ _ _ => Err (Raise TimeoutError "timed out"))
        no_fault.

Definition remote0 : Remote :=
  mkRemote [("zone-1", Some (Zone.mk "example.com"))] [] 0.

Definition world0 : World := initial_world remote0.

Definition cloudflare : Cloudflare.t := Cloudflare.mk "token".

End Scenario.

(** ** Vocabulary of the further properties *)

(** The name and data a request writes, for the two writing requests. *)
Definition written (ev : api_event) : option (string * Data.t) :=
  match ev with
  | RecordsUpdate _ _ name data _ | RecordsCreate _ name data _ => Some (name, data)
  | _ => None
  end.

(** One call of [update] in [main]: subdomain, host and port. *)
Definition target : Type := string * string * Z.

Definition reconcile (env : Env) (cloudflare : Cloudflare.t) (zone_id : string)
    (t : target) : M unit :=
  let '(subdomain, host, port) := t in
  update_record env cloudflare zone_id subdomain host port.

(** The calls of [update] in the [with] block of [main], in order. *)
Definition targets (config : Config.t) (selected : Node.t) : list target :=
  map (fun node =>
         (concat_domain [Node.subdomain node; Config.subdomain config],
          Node.host node, Node.port node))
      (Config.nodes config)
  ++ [(Config.subdomain config, Node.host selected, Node.port selected)].

(** What reconciling [t] writes in a zone called [zone_name]. *)
Definition target_write (zone_name : string) (t : target) : string * Data.t :=
  let '(subdomain, host, port) := t in
  (concat_domain ["_minecraft._tcp"%string; subdomain; zone_name],
   Data.mk host port 0 0).

(** No two stored records share an identity. *)
Definition unique_ids (r : Remote) : Prop :=
  NoDup (map DnsRecord.id (records r)).

(** The stored SRV records of a name in a zone. *)
Definition records_named (r : Remote) (zone_id fqdn : string) : list DnsRecord.t :=
  List.filter (Cloudflare.matches zone_id fqdn "SRV") (records r).

(** The stored records that are not SRV records of that name in that
    zone. *)
Definition records_elsewhere (r : Remote) (zone_id fqdn : string) : list DnsRecord.t :=
  List.filter (fun x => negb (Cloudflare.matches zone_id fqdn "SRV" x)) (records r).

Definition digit_or_dot (c : ascii) : bool :=
  ipaddress.is_digit c || Ascii.eqb c ".".

(** [part + "."] *)
Definition with_dot (part : string) : string := (part ++ ".")%string.

(** A request to the provider, as opposed to opening or closing the
    client. *)
Definition is_request (ev : api_event) : bool :=
  match ev with
  | ClientEnter _ | ClientExit => false
  | _ => true
  end.

(** The provider's state after a served reconciliation of [fqdn] with
    [data]: the first listed record overwritten, or a record added. *)
Definition reconciled (r : Remote) (zone_id fqdn : string) (data : Data.t) : Remote :=
  match listing r zone_id fqdn with
  | first :: _ =>
      mkRemote (zones r)
        (map (fun x => if Cloudflare.owns (DnsRecord.id first) zone_id x
                       then DnsRecord.mk (DnsRecord.id first) zone_id fqdn "SRV" data
                       else x)
             (records r))
        (next_id r)
  | [] =>
      mkRemote (zones r)
        (records r ++ [DnsRecord.mk (next_id r) zone_id fqdn "SRV" data])
        (S (next_id r))
  end.

(** The score [check_preference] returns for a node of this bandwidth
    when its probe has this outcome. *)
Definition scored_by (outcome : result PyFloat.t) (bandwidth : Z) (s : score) : Prop :=
  match outcome with
  | Err ex => is_Exception ex = true /\ s = IntZero
  | Ok lat => result_map Float (PyFloat.int_truediv (bandwidth ^ 2) lat) = Ok s
  end.

(** * Properties *)

(** ** The order on floats *)

Ltac order_case :=
  split; intros;
  first [ reflexivity | discriminate | lia | congruence
        | exfalso; lia
        | exfalso; congruence
        | match goal with
          | H : (_, _, _) = (_, _, _) |- _ => injection H; intros; exfalso; lia
          end ].

Ltac order_by_rank :=
  intros a b Ha Hb; unfold SFltb, SFleb, SFeqb, SFcompare;
  destruct a as [sa|sa| |sa ma ea], b as [sb|sb| |sb mb eb];
  try discriminate; try destruct sa; try destruct sb; cbn;
  try change (Pos.compare_cont Eq ma mb) with (Pos.compare ma mb);
  try (destruct (Z.compare_spec ea eb), (Pos.compare_spec ma mb); cbn);
  order_case.

Lemma SFltb_rank : forall a b : spec_float,
  PyFloat.is_nan a = false -> PyFloat.is_nan b = false ->
  SFltb a b = true <-> lex_lt (rank a) (rank b).
Proof. order_by_rank. Qed.

Lemma SFleb_rank : forall a b : spec_float,
  PyFloat.is_nan a = false -> PyFloat.is_nan b = false ->
  SFleb a b = true <-> ~ lex_lt (rank b) (rank a).
Proof. order_by_rank. Qed.

Lemma SFeqb_rank : forall a b : spec_float,
  PyFloat.is_nan a = false -> PyFloat.is_nan b = false ->
  SFeqb a b = true <-> rank a = rank b.
Proof. order_by_rank. Qed.

Lemma SFltb_false_rank (a b : spec_float) :
  PyFloat.is_nan a = false -> PyFloat.is_nan b = false ->
  SFltb a b = false <-> ~ lex_lt (rank a) (rank b).
Proof.
  intros Ha Hb. rewrite <- (SFltb_rank a b Ha Hb).
  destruct (SFltb a b); split; congruence.
Qed.

Lemma nonneg_class_leb (f : spec_float) :
  PyFloat.leb PyFloat.zero f = nonneg_class f.
Proof. destruct f as [s|[]| |[] m e]; reflexivity. Qed.

(** ** Scores under [>] *)

Lemma score_number_nan (s : score) :
  score_is_number s = true <-> PyFloat.is_nan (score_value s) = false.
Proof. unfold score_is_number. destruct (PyFloat.is_nan _); cbn; split; congruence. Qed.

Ltac by_rank :=
  repeat match goal with
    | H : score_is_number _ = true |- _ => apply score_number_nan in H
    end;
  unfold score_gt, score_le, score_pos, score_eq0, score_nonneg,
    PyFloat.gtb, PyFloat.ltb, PyFloat.leb, PyFloat.eqb in *;
  repeat match goal with
    | H : SFltb ?a ?b = true |- _ => apply SFltb_rank in H; [|assumption..]
    | H : SFltb ?a ?b = false |- _ => apply SFltb_false_rank in H; [|assumption..]
    | H : SFleb ?a ?b = true |- _ => apply SFleb_rank in H; [|assumption..]
    | H : SFeqb ?a ?b = true |- _ => apply SFeqb_rank in H; [|assumption..]
    | |- SFltb ?a ?b = true => apply SFltb_rank; [assumption..|]
    | |- SFltb ?a ?b = false => apply SFltb_false_rank; [assumption..|]
    | |- SFleb ?a ?b = true => apply SFleb_rank; [assumption..|]
    | |- SFeqb ?a ?b = true => apply SFeqb_rank; [assumption..|]
    end;
  unfold lex_lt in *;
  repeat match goal with
    | |- context [rank ?x] =>
        let r1 := fresh "r" in let r2 := fresh "r" in let r3 := fresh "r" in
        destruct (rank x) as [[r1 r2] r3]
    | H : context [rank ?x] |- _ =>
        let r1 := fresh "r" in let r2 := fresh "r" in let r3 := fresh "r" in
        destruct (rank x) as [[r1 r2] r3]
    end;
  try match goal with |- (_, _, _) = (_, _, _) => f_equal; [f_equal|] end;
  repeat match goal with H : (_, _, _) = (_, _, _) |- _ => injection H as ? ? ? end;
  lia.

Lemma score_gt_asym (a b : score) :
  score_is_number a = true -> score_is_number b = true ->
  score_gt a b = true -> score_gt b a = false.
Proof. intros. by_rank. Qed.

Lemma score_le_trans (a b c : score) :
  score_is_number a = true -> score_is_number b = true -> score_is_number c = true ->
  score_gt a b = false -> score_gt b c = false -> score_gt a c = false.
Proof. intros. by_rank. Qed.

Lemma score_not_gt_le (a b : score) :
  score_is_number a = true -> score_is_number b = true ->
  score_gt a b = false -> score_le a b = true.
Proof. intros. by_rank. Qed.

Lemma score_pos_le (a b : score) :
  score_is_number a = true -> score_is_number b = true ->
  score_pos a = true -> score_gt a b = false -> score_pos b = true.
Proof.
  intros Ha Hb Hp Hle.
  assert (Hz : PyFloat.is_nan PyFloat.zero = false) by reflexivity.
  by_rank.
Qed.


(** ** [max] with a key

    The laws are asked of the keys that satisfy [P] only: for floats the
    comparison is not an order on NaN. *)

Section PyMax.

Context {A K : Type} (gt : K -> K -> bool) (key : A -> K) (P : K -> Prop).

Hypothesis gt_asym :
  forall a b, P a -> P b -> gt a b = true -> gt b a = false.
Hypothesis le_trans :
  forall a b c, P a -> P b -> P c ->
    gt a b = false -> gt b c = false -> gt a c = false.

Local Abbreviation step := (max_step gt key).

Local Abbreviation leads := (leads gt key).

Lemma gt_irrefl a : P a -> gt a a = false.
Proof.
  intros Pa. destruct (gt a a) eqn:E; [|reflexivity].
  rewrite (gt_asym a a Pa Pa E) in E. discriminate.
Qed.

Lemma leads_step seen i best x :
  Forall (fun y => P (key y)) (seen ++ [x]) ->
  leads seen i best ->
  exists i', leads (seen ++ [x]) i' (step best x).
Proof.
  intros HP (Hi & Hle & Hlt).
  apply Forall_app in HP as [HPs HPx].
  rewrite Forall_singleton in HPx.
  assert (Pb : P (key best)) by (eapply (Forall_lookup_1 _ _ _ _ HPs); eauto).
  unfold step. destruct (gt (key x) (key best)) eqn:E.
  - exists (length seen). repeat split.
    + rewrite lookup_app_r by lia. now rewrite Nat.sub_diag.
    + intros j y Hj. apply lookup_app_Some in Hj as [Hj | [_ Hj]].
      * assert (Py : P (key y)) by (eapply (Forall_lookup_1 _ _ _ _ HPs); eauto).
        apply (le_trans _ (key best)); eauto.
      * apply list_lookup_singleton_Some in Hj as [_ <-].
        now apply gt_irrefl.
    + intros j y Hj Hlen. rewrite lookup_app_l in Hj by lia.
      assert (Py : P (key y)) by (eapply (Forall_lookup_1 _ _ _ _ HPs); eauto).
      destruct (gt (key x) (key y)) eqn:E'; [reflexivity|].
      rewrite (le_trans _ _ _ HPx Py Pb E' (Hle _ _ Hj)) in E. discriminate.
  - exists i. repeat split.
    + apply lookup_app_l_Some. exact Hi.
    + intros j y Hj. apply lookup_app_Some in Hj as [Hj | [_ Hj]]; eauto.
      apply list_lookup_singleton_Some in Hj as [_ <-]. exact E.
    + intros j y Hj Hlen. apply (Hlt j y); [|exact Hlen].
      apply lookup_lt_Some in Hi.
      rewrite lookup_app_l in Hj by lia. exact Hj.
Qed.

Lemma leads_fold rest : forall seen i best,
  Forall (fun y => P (key y)) (seen ++ rest) ->
  leads seen i best ->
  exists i', leads (seen ++ rest) i' (fold_left step rest best).
Proof.
  induction rest as [|x rest IH]; intros seen i best HP Hl; cbn.
  - rewrite app_nil_r. eauto.
  - replace (seen ++ x :: rest) with ((seen ++ [x]) ++ rest) in *
      by (now rewrite <- app_assoc).
    destruct (leads_step seen i best x) as [i' Hl']; [|exact Hl|].
    + apply Forall_app in HP as [HP _]. exact HP.
    + eapply IH; eauto.
Qed.

Lemma py_max_leads items :
  items <> [] ->
  Forall (fun y => P (key y)) items ->
  exists i best, py_max gt key items = Ok best /\ leads items i best.
Proof.
  destruct items as [|first rest]; [congruence|]. intros _ HP.
  destruct (leads_fold rest [first] 0%nat first) as [i Hl]; [exact HP| |].
  - repeat split; [|lia].
    intros [|j] x Hj; cbn in Hj; [|destruct j; discriminate].
    injection Hj as <-. apply gt_irrefl.
    now apply Forall_cons in HP as [HP _].
  - exists i. eexists. split; [reflexivity|exact Hl].
Qed.

End PyMax.

(** ** Selection *)

Lemma py_max_In {A K} (gt : K -> K -> bool) (key : A -> K) (items : list A) best :
  py_max gt key items = Ok best -> In best items.
Proof.
  destruct items as [|first rest]; [discriminate|]. cbn. intros [= <-].
  assert (G : forall l b, In b (first :: rest) -> incl l (first :: rest) ->
              In (fold_left (max_step gt key) l b) (first :: rest)).
  { induction l as [|x l IH]; intros b Hb Hl; cbn; [exact Hb|].
    apply IH.
    - unfold max_step. destruct (gt (key x) (key b)); [apply Hl; now left | exact Hb].
    - intros y Hy. apply Hl. now right. }
  apply G; [now left | intros y Hy; now right].
Qed.

Lemma py_max_nonempty {A K} (gt : K -> K -> bool) (key : A -> K) (items : list A) :
  items <> [] -> exists best, py_max gt key items = Ok best.
Proof. destruct items; [congruence|]. intros _. eexists. reflexivity. Qed.



(** ** The monad and the loops *)

Lemma bind_ok {A B} (m : M A) (k : A -> M B) w a w' :
  m w = (Ok a, w') -> bind m k w = k a w'.
Proof. unfold bind. now intros ->. Qed.

Lemma bind_err {A B} (m : M A) (k : A -> M B) w ex w' :
  m w = (Err ex, w') -> bind m k w = (Err ex, w').
Proof. unfold bind. now intros ->. Qed.

(** A loop keeps whatever part of the world its body keeps. *)
Lemma comprehension_frame {A B S} (proj : World -> S) (f : A -> M B) :
  (forall x w, proj (snd (f x w)) = proj w) ->
  forall xs w, proj (snd (comprehension f xs w)) = proj w.
Proof.
  intros Hf. induction xs as [|x xs IH]; intros w; cbn; [reflexivity|].
  unfold bind. specialize (Hf x w). destruct (f x w) as [[y|ex] w1]; cbn in *; [|exact Hf].
  specialize (IH w1). destruct (comprehension f xs w1) as [[ys|ex] w2]; cbn in *; congruence.
Qed.

Lemma comprehension_length {A B} (f : A -> M B) :
  forall xs w ys w', comprehension f xs w = (Ok ys, w') -> length ys = length xs.
Proof.
  induction xs as [|x xs IH]; intros w ys w'; cbn.
  - unfold ret. now intros [= <- _].
  - unfold bind. destruct (f x w) as [[y|ex] w1]; [|discriminate].
    destruct (comprehension f xs w1) as [[ys'|ex] w2] eqn:E; [|discriminate].
    unfold ret. intros [= <- _]. cbn. f_equal. eapply IH. exact E.
Qed.

(** ** Probing leaves the provider alone *)

Lemma check_preference_dns_side env node timeout w :
  dns_side (snd (check_preference env node timeout w)) = dns_side w.
Proof.
  unfold check_preference, bind, try, JavaServer.ping, lift, eprint, ret, raise.
  destruct (ping env _ _ _ _) as [lat|ex]; cbn.
  - destruct (PyFloat.int_truediv _ _); reflexivity.
  - destruct (is_Exception ex); reflexivity.
Qed.

Lemma probe_all_dns_side env config w :
  dns_side (snd (probe_all env config w)) = dns_side w.
Proof.
  unfold probe_all. apply comprehension_frame. intros node w0.
  unfold probe_one, bind. pose proof (check_preference_dns_side env node (Config.timeout config) w0) as H.
  destruct (check_preference _ _ _ _) as [[s|ex] w1]; exact H.
Qed.

Lemma check_preference_stdout env node timeout w :
  stdout (snd (check_preference env node timeout w)) = stdout w.
Proof.
  unfold check_preference, bind, try, JavaServer.ping, lift, eprint, ret, raise.
  destruct (ping env _ _ _ _) as [lat|ex]; cbn.
  - destruct (PyFloat.int_truediv _ _); reflexivity.
  - destruct (is_Exception ex); reflexivity.
Qed.

Lemma probe_all_stdout env config w :
  stdout (snd (probe_all env config w)) = stdout w.
Proof.
  unfold probe_all. apply comprehension_frame. intros node w0.
  unfold probe_one, bind. pose proof (check_preference_stdout env node (Config.timeout config) w0) as H.
  destruct (check_preference _ _ _ _) as [[s|ex] w1]; exact H.
Qed.

(** ** Validation returns its argument *)

Lemma Node_validate_ok raw n : Node.validate raw = Ok n -> n = raw.
Proof.
  unfold Node.validate, field_validator, Node.check_host. destruct raw as [s h p b]; cbn.
  destruct (ipaddress.ip_address h) as [a|ex]; [discriminate|].
  destruct (exn_class_of ex); cbn; try discriminate; now intros [= <-].
Qed.

Lemma validate_nodes_ok raw : forall ns, Config.validate_nodes raw = Ok ns -> ns = raw.
Proof.
  induction raw as [|n raw IH]; cbn; intros ns.
  - now intros [= <-].
  - destruct (Node.validate n) as [n'|ex] eqn:En.
    + destruct (Config.validate_nodes raw) as [ns'|ex]; [|discriminate].
      intros [= <-]. f_equal; [now apply Node_validate_ok | now apply IH].
    + destruct (Config.validate_nodes raw); discriminate.
Qed.

Lemma Config_validate_ok raw config : Config.validate raw = Ok config -> config = raw.
Proof.
  unfold Config.validate, field_validator, Config.check_nodes.
  destruct (Config.validate_nodes (Config.nodes raw)) as [ns|ex] eqn:E; [|discriminate].
  apply validate_nodes_ok in E. subst ns.
  destruct (bool_decide _); [|discriminate].
  intros [= <-]. now destruct raw.
Qed.

Lemma read_config_ok env raw config w :
  config_file env = Ok raw -> Config.validate raw = Ok config ->
  read_config env w = (Ok config, w).
Proof. unfold read_config, lift. now intros -> ->. Qed.

(** ** [main] when the best score is zero *)

(** The run once the probes are done and the best score compares equal
    to zero: the audit lines, the message, and nothing else. *)
Lemma main_when_best_is_zero env raw config w prefs w1 selected pref :
  config_file env = Ok raw -> Config.validate raw = Ok config ->
  probe_all env config w = (Ok prefs, w1) ->
  py_max score_gt snd prefs = Ok (selected, pref) ->
  score_eq0 pref = true ->
  main env w =
    (Ok tt, mkWorld (stdout w ++ [Tested prefs])
                    (stderr w1 ++ ["no node available."%string])
                    (pings w1) (remote w) (api_log w)).
Proof.
  intros Hf Hv Hp Hmax Hz. unfold main.
  rewrite (bind_ok _ _ _ _ _ (read_config_ok env raw config w Hf Hv)).
  rewrite (bind_ok _ _ _ _ _ Hp).
  pose proof (probe_all_dns_side env config w) as Hd.
  pose proof (probe_all_stdout env config w) as Ho.
  rewrite Hp in Hd, Ho. cbn in Hd, Ho. injection Hd as Hr Hl.
  unfold bind at 1. cbn. unfold bind at 1. unfold lift. rewrite Hmax.
  rewrite Hz. unfold eprint. cbn. now rewrite Hr, Hl, Ho.
Qed.

(** C1. For every configuration with at least one node, if every node's
    probe yields a score equal to 0, the run sends no request to the
    provider at all (the request log and the provider's records are
    what they were, no client is even opened), writes "no node
    available." last on the error stream, and [main] returns normally:
    a clean exit. *)
Theorem all_probes_zero_no_dns_operation
    env raw config (w : World) (prefs : list (Node.t * score)) (w1 : World) :
  config_file env = Ok raw -> Config.validate raw = Ok config ->
  Config.nodes config <> [] ->
  probe_all env config w = (Ok prefs, w1) ->
  Forall (fun p => score_eq0 (snd p) = true) prefs ->
  exists w',
    main env w = (Ok tt, w')
    /\ exits_cleanly (fst (main env w)) = true
    /\ api_log w' = api_log w
    /\ remote w' = remote w
    /\ stderr w' = stderr w1 ++ ["no node available."%string].
Proof.
  intros Hf Hv Hne Hp Hz.
  assert (Hpne : prefs <> []).
  { apply comprehension_length in Hp. destruct prefs; [|discriminate].
    destruct (Config.nodes config); [congruence | discriminate]. }
  destruct (py_max_nonempty score_gt snd prefs Hpne) as [[selected pref] Hmax].
  assert (Hpref : score_eq0 pref = true).
  { apply py_max_In in Hmax. rewrite Forall_forall in Hz.
    apply (Hz (selected, pref)). now apply list_elem_of_In. }
  rewrite (main_when_best_is_zero env raw config w prefs w1 selected pref Hf Hv Hp Hmax Hpref).
  eexists. repeat split.
Qed.

(** The two nodes of the scenario both time out. *)
Lemma all_probes_zero_no_dns_operation_witness :
  exists w',
    main Scenario.env_down Scenario.world0 = (Ok tt, w')
    /\ exits_cleanly (fst (main Scenario.env_down Scenario.world0)) = true
    /\ api_log w' = api_log Scenario.world0
    /\ remote w' = remote Scenario.world0
    /\ stderr w' =
         stderr (snd (probe_all Scenario.env_down Scenario.config Scenario.world0))
           ++ ["no node available."%string].
Proof.
  apply (all_probes_zero_no_dns_operation Scenario.env_down Scenario.config
           Scenario.config Scenario.world0
           [(Scenario.node_a, IntZero); (Scenario.node_b, IntZero)]).
  - reflexivity.
  - vm_compute. reflexivity.
  - discriminate.
  - vm_compute. reflexivity.
  - repeat constructor.
Defined.

(** C2 as stated fails: with both probes of the scenario timing out the
    maximum score is 0 and the node list is not empty, yet the run ends
    without a single request, so no per-node alias is reconciled. *)
Lemma max_zero_reconciles_no_alias :
  Config.nodes Scenario.config <> []
  /\ (exists prefs w1 selected pref,
        probe_all Scenario.env_down Scenario.config Scenario.world0 = (Ok prefs, w1)
        /\ py_max score_gt snd prefs = Ok (selected, pref)
        /\ score_eq0 pref = true)
  /\ api_log (snd (main Scenario.env_down Scenario.world0)) = []
  /\ ~ Forall (fun node =>
                 alias_reconciled Scenario.config "example.com"
                   (api_log (snd (main Scenario.env_down Scenario.world0))) node = true)
              (Config.nodes Scenario.config).
Proof.
  split; [discriminate|]. split; [|split].
  - do 4 eexists. split; [|split]; vm_compute; reflexivity.
  - vm_compute. reflexivity.
  - intros H. apply Forall_cons in H as [H _]. vm_compute in H. discriminate.
Qed.

(** C2, amended. When the maximum score compares equal to 0 the run
    skips every record, the per-node aliases as well as the winner
    alias: it reports "no node available.", makes no request to the
    provider (so no alias of any node is written) and returns. *)
Theorem max_zero_skips_every_record
    env raw config (w : World) (prefs : list (Node.t * score)) (w1 : World)
    (selected : Node.t) (pref : score) :
  config_file env = Ok raw -> Config.validate raw = Ok config ->
  probe_all env config w = (Ok prefs, w1) ->
  py_max score_gt snd prefs = Ok (selected, pref) ->
  score_eq0 pref = true ->
  exists w',
    main env w = (Ok tt, w')
    /\ api_log w' = api_log w
    /\ remote w' = remote w
    /\ (forall zone_name node,
          alias_reconciled config zone_name
            (skipn (length (api_log w)) (api_log w')) node = false)
    /\ stderr w' = stderr w1 ++ ["no node available."%string].
Proof.
  intros Hf Hv Hp Hmax Hz.
  rewrite (main_when_best_is_zero env raw config w prefs w1 selected pref Hf Hv Hp Hmax Hz).
  eexists. repeat split. cbn. intros zone_name node.
  now rewrite skipn_all.
Qed.

Lemma max_zero_skips_every_record_witness :
  exists w',
    main Scenario.env_down Scenario.world0 = (Ok tt, w')
    /\ api_log w' = api_log Scenario.world0
    /\ remote w' = remote Scenario.world0
    /\ (forall zone_name node,
          alias_reconciled Scenario.config zone_name
            (skipn (length (api_log Scenario.world0)) (api_log w')) node = false)
    /\ stderr w' =
         stderr (snd (probe_all Scenario.env_down Scenario.config Scenario.world0))
           ++ ["no node available."%string].
Proof.
  apply (max_zero_skips_every_record Scenario.env_down Scenario.config
           Scenario.config Scenario.world0
           [(Scenario.node_a, IntZero); (Scenario.node_b, IntZero)] _
           Scenario.node_a IntZero).
  - reflexivity.
  - vm_compute. reflexivity.
  - vm_compute. reflexivity.
  - vm_compute. reflexivity.
  - vm_compute. reflexivity.
Defined.

(** C10. With an empty node list the run does not reach the "no node
    available." exit: [max] of the empty score list raises [ValueError],
    nothing catches it, and [main] ends with that error after printing
    the (empty) audit block, without any request to the provider and
    without any message on the error stream. *)
Theorem empty_node_list_raises env raw config (w : World) :
  config_file env = Ok raw -> Config.validate raw = Ok config ->
  Config.nodes config = [] ->
  exists ex w',
    main env w = (Err ex, w')
    /\ exn_class_of ex = ValueError
    /\ exits_cleanly (fst (main env w)) = false
    /\ stderr w' = stderr w
    /\ api_log w' = api_log w
    /\ remote w' = remote w.
Proof.
  intros Hf Hv Hn. unfold main.
  rewrite (bind_ok _ _ _ _ _ (read_config_ok env raw config w Hf Hv)).
  unfold probe_all. rewrite Hn. cbn.
  do 2 eexists. repeat split.
Qed.

Lemma empty_node_list_raises_witness :
  exists ex w',
    main Scenario.env_empty Scenario.world0 = (Err ex, w')
    /\ exn_class_of ex = ValueError
    /\ exits_cleanly (fst (main Scenario.env_empty Scenario.world0)) = false
    /\ stderr w' = stderr Scenario.world0
    /\ api_log w' = api_log Scenario.world0
    /\ remote w' = remote Scenario.world0.
Proof.
  apply (empty_node_list_raises Scenario.env_empty Scenario.config_empty
           Scenario.config_empty Scenario.world0).
  - reflexivity.
  - vm_compute. reflexivity.
  - reflexivity.
Defined.

(** ** Rounding keeps the sign

    Conversion of a non-negative int and division of a non-negative
    float by a positive one never produce NaN or a negative float. *)

Lemma shr_1_nonneg (mrs : shr_record) :
  0 <= shr_m mrs -> 0 <= shr_m (shr_1 mrs).
Proof. destruct mrs as [[|[p|p|]|p] r s]; cbn; lia. Qed.

Lemma iter_shr_1_nonneg (p : positive) : forall mrs,
  0 <= shr_m mrs -> 0 <= shr_m (SpecFloat.iter_pos shr_1 p mrs).
Proof.
  induction p as [p IH|p IH|]; intros mrs H; cbn.
  - apply IH, IH, shr_1_nonneg, H.
  - apply IH, IH, H.
  - apply shr_1_nonneg, H.
Qed.

Lemma shr_nonneg (mrs : shr_record) (e n : Z) :
  0 <= shr_m mrs -> 0 <= shr_m (fst (shr mrs e n)).
Proof.
  intros H. destruct n as [|p|p]; cbn; try exact H.
  now apply iter_shr_1_nonneg.
Qed.

Lemma shr_fexp_nonneg (m e : Z) (l : location) :
  0 <= m -> 0 <= shr_m (fst (shr_fexp PyFloat.prec PyFloat.emax m e l)).
Proof.
  intros H. unfold shr_fexp. apply shr_nonneg.
  destruct l as [|[]]; exact H.
Qed.

Lemma round_nearest_even_nonneg (m : Z) (l : location) :
  0 <= m -> 0 <= round_nearest_even m l.
Proof.
  intros H. destruct l as [|[]]; cbn; try lia.
  destruct (Z.even m); lia.
Qed.

Lemma binary_round_aux_nonneg (m e : Z) (l : location) :
  0 <= m ->
  nonneg_class (binary_round_aux PyFloat.prec PyFloat.emax false m e l) = true.
Proof.
  intros H. unfold binary_round_aux.
  pose proof (shr_fexp_nonneg m e l H) as H1.
  destruct (shr_fexp PyFloat.prec PyFloat.emax m e l) as [mrs' e']. cbn in H1.
  pose proof (shr_fexp_nonneg _ e' loc_Exact
                (round_nearest_even_nonneg _ (loc_of_shr_record mrs') H1)) as H2.
  destruct (shr_fexp PyFloat.prec PyFloat.emax _ e' loc_Exact) as [mrs'' e'']. cbn in H2.
  destruct (shr_m mrs'') as [|q|q]; [reflexivity| |lia].
  now destruct (e'' <=? PyFloat.emax - PyFloat.prec).
Qed.

Lemma binary_normalize_nonneg (z : Z) :
  0 <= z ->
  nonneg_class (binary_normalize PyFloat.prec PyFloat.emax z 0 false) = true.
Proof.
  intros H. destruct z as [|p|p]; [reflexivity| |lia].
  unfold binary_normalize, binary_round.
  destruct (shl_align _ _ _) as [mz ez].
  apply binary_round_aux_nonneg. lia.
Qed.

Lemma of_int_nonneg (z : Z) (f : PyFloat.t) :
  0 <= z -> PyFloat.of_int z = Ok f ->
  nonneg_class f = true /\ (forall s, f <> S754_infinity s).
Proof.
  intros H. unfold PyFloat.of_int.
  pose proof (binary_normalize_nonneg z H) as Hn.
  destruct (binary_normalize _ _ _ _ _); intros [= <-]; split; try exact Hn; congruence.
Qed.

Lemma SFdiv_core_nonneg (mx my : positive) (ex ey : Z) :
  0 <= fst (fst (SFdiv_core_binary PyFloat.prec PyFloat.emax (Zpos mx) ex (Zpos my) ey)).
Proof.
  unfold SFdiv_core_binary.
  set (s := _ - _ - _).
  set (m' := match s with Z0 => _ | Zpos _ => _ | Zneg _ => _ end).
  assert (Hm : 0 <= m').
  { subst m'. destruct s; try lia. apply Z.shiftl_nonneg. lia. }
  pose proof (Z.div_pos m' (Zpos my) Hm ltac:(lia)) as Hq.
  unfold Z.div in Hq. destruct (Z.div_eucl m' (Zpos my)) as [q r]. exact Hq.
Qed.

Lemma SFdiv_nonneg (a b : spec_float) :
  nonneg_class a = true -> (forall s, a <> S754_infinity s) ->
  SFltb PyFloat.zero b = true ->
  nonneg_class (SFdiv PyFloat.prec PyFloat.emax a b) = true.
Proof.
  intros Ha Hfin Hb.
  destruct b as [sb|[]| |[] mb eb]; try discriminate;
    destruct a as [sa|[]| |[] ma ea]; try discriminate;
    try (exfalso; eapply Hfin; reflexivity); try reflexivity.
  cbn [SFdiv xorb].
  pose proof (SFdiv_core_nonneg ma mb ea eb) as Hq.
  destruct (SFdiv_core_binary _ _ _ _ _ _) as [[q e] l]. cbn in Hq.
  now apply binary_round_aux_nonneg.
Qed.

Lemma positive_not_zero (b : spec_float) :
  PyFloat.ltb PyFloat.zero b = true -> PyFloat.eqb b PyFloat.zero = false.
Proof. destruct b as [sb|[]| |[] mb eb]; cbn; congruence. Qed.

Lemma square_nonneg (z : Z) : 0 <= z ^ 2.
Proof. apply Z.pow_even_nonneg. now exists 1. Qed.

(** ** [check_preference] *)

Lemma check_preference_success env node timeout w lat :
  ping env (pings w) (Node.host node) (Node.port node) timeout = Ok lat ->
  check_preference env node timeout w =
    (result_map Float (PyFloat.int_truediv (Node.bandwidth node ^ 2) lat), probed w).
Proof.
  intros Hp. unfold check_preference, bind, try, JavaServer.ping, lift, ret. cbn.
  rewrite Hp. now destruct (PyFloat.int_truediv _ _).
Qed.

Lemma check_preference_failure env node timeout w ex :
  ping env (pings w) (Node.host node) (Node.port node) timeout = Err ex ->
  is_Exception ex = true ->
  check_preference env node timeout w =
    (Ok IntZero,
     mkWorld (stdout w) (stderr w ++ [("ping failed: " ++ exn_msg ex)%string])
             (S (pings w)) (remote w) (api_log w)).
Proof.
  intros Hp Hex. unfold check_preference, bind, try, JavaServer.ping, eprint, ret. cbn.
  rewrite Hp, Hex. reflexivity.
Qed.

Lemma int_truediv_positive (z : Z) (lat b2 : PyFloat.t) :
  PyFloat.ltb PyFloat.zero lat = true ->
  PyFloat.of_int z = Ok b2 ->
  PyFloat.int_truediv z lat = Ok (SFdiv PyFloat.prec PyFloat.emax b2 lat).
Proof.
  intros Hlat Hz. unfold PyFloat.int_truediv, PyFloat.truediv.
  now rewrite Hz, (positive_not_zero lat Hlat).
Qed.

(** C5 as stated fails: a node whose squared bandwidth is beyond the
    range of a float (here bandwidth 10^200) gets no score although its
    probe succeeds with latency 2.0: the conversion of the int raises
    [OverflowError]. *)
Lemma huge_bandwidth_raises :
  ping Scenario.env_up 0 "a.example.com" 25565 (PyFloat.lit 5) = Ok (PyFloat.lit 2)
  /\ PyFloat.ltb PyFloat.zero (PyFloat.lit 2) = true
  /\ check_preference Scenario.env_up (Node.mk "a" "a.example.com" 25565 (10 ^ 200))
       (PyFloat.lit 5) Scenario.world0
     = (Err (Raise OverflowError "int too large to convert to float"),
        probed Scenario.world0)
  /\ ~ (exists f w',
         check_preference Scenario.env_up (Node.mk "a" "a.example.com" 25565 (10 ^ 200))
           (PyFloat.lit 5) Scenario.world0 = (Ok (Float f), w')).
Proof.
  split; [reflexivity|]. split; [reflexivity|]. split; [vm_compute; reflexivity|].
  intros (f & w' & H). vm_compute in H. discriminate.
Qed.

(** C5, amended. For every node whose probe succeeds with a strictly
    positive latency [lat] and whose squared bandwidth has a float value
    [b2] (it is within the range of a double), [check_preference]
    returns exactly the quotient of [b2] by [lat], the value of
    [bandwidth ** 2 / lat], and writes nothing.  For bandwidth 10 at
    latency 2.0 and bandwidth 5 at latency 1.0 the scores are 50.0 and
    25.0 and the first node is selected. *)
Theorem check_preference_bandwidth_squared_over_latency
    env (node : Node.t) (timeout : PyFloat.t) (w : World) (lat b2 : PyFloat.t) :
  ping env (pings w) (Node.host node) (Node.port node) timeout = Ok lat ->
  PyFloat.ltb PyFloat.zero lat = true ->
  PyFloat.of_int (Node.bandwidth node ^ 2) = Ok b2 ->
  check_preference env node timeout w =
    (Ok (Float (SFdiv PyFloat.prec PyFloat.emax b2 lat)), probed w)
  /\ probe_all Scenario.env_up Scenario.config Scenario.world0 =
       (Ok [(Scenario.node_a, Float (PyFloat.lit 50));
            (Scenario.node_b, Float (PyFloat.lit 25))],
        probed (probed Scenario.world0))
  /\ py_max score_gt snd
       [(Scenario.node_a, Float (PyFloat.lit 50));
        (Scenario.node_b, Float (PyFloat.lit 25))]
     = Ok (Scenario.node_a, Float (PyFloat.lit 50)).
Proof.
  intros Hp Hlat Hb.
  split; [|split].
  - rewrite (check_preference_success env node timeout w lat Hp).
    now rewrite (int_truediv_positive _ lat b2 Hlat Hb).
  - vm_compute. reflexivity.
  - vm_compute. reflexivity.
Qed.

(** Node a of the scenario: bandwidth 10, latency 2.0, score 50.0. *)
Lemma check_preference_bandwidth_squared_over_latency_witness :
  check_preference Scenario.env_up Scenario.node_a (PyFloat.lit 5) Scenario.world0
  = (Ok (Float (PyFloat.lit 50)), probed Scenario.world0).
Proof.
  destruct (check_preference_bandwidth_squared_over_latency
              Scenario.env_up Scenario.node_a (PyFloat.lit 5) Scenario.world0
              (PyFloat.lit 2) (PyFloat.lit 100))
    as (H & _).
  - reflexivity.
  - vm_compute. reflexivity.
  - vm_compute. reflexivity.
  - rewrite H. vm_compute. reflexivity.
Defined.

(** C6 as stated fails: a probe reporting a latency of exactly zero
    makes [check_preference] raise [ZeroDivisionError]; no score is
    returned. *)
Lemma zero_latency_raises :
  ping Scenario.env_zero_latency 0 "a.example.com" 25565 (PyFloat.lit 5) = Ok PyFloat.zero
  /\ check_preference Scenario.env_zero_latency Scenario.node_a (PyFloat.lit 5)
       Scenario.world0
     = (Err (Raise ZeroDivisionError "float division by zero"), probed Scenario.world0)
  /\ ~ (exists s w',
         check_preference Scenario.env_zero_latency Scenario.node_a (PyFloat.lit 5)
           Scenario.world0 = (Ok s, w')
         /\ score_nonneg s = true).
Proof.
  split; [reflexivity|]. split; [vm_compute; reflexivity|].
  intros (s & w' & H & _). vm_compute in H. discriminate.
Qed.

(** C6, amended. For every node and every probe outcome that is a caught
    failure or a strictly positive latency (the squared bandwidth having
    a float value), [check_preference] returns a score [s] with
    [0 <= s] and does not raise. *)
Theorem check_preference_nonnegative
    env (node : Node.t) (timeout : PyFloat.t) (w : World) :
  match ping env (pings w) (Node.host node) (Node.port node) timeout with
  | Err ex => is_Exception ex = true
  | Ok lat =>
      PyFloat.ltb PyFloat.zero lat = true
      /\ is_Ok (PyFloat.of_int (Node.bandwidth node ^ 2)) = true
  end ->
  exists s w',
    check_preference env node timeout w = (Ok s, w')
    /\ score_nonneg s = true.
Proof.
  destruct (ping env _ _ _ _) as [lat|ex] eqn:Hp.
  - intros [Hlat Hconv].
    destruct (PyFloat.of_int (Node.bandwidth node ^ 2)) as [b2|] eqn:Hb; [|discriminate].
    rewrite (check_preference_success env node timeout w lat Hp).
    rewrite (int_truediv_positive _ lat b2 Hlat Hb). cbn.
    do 2 eexists. split; [reflexivity|].
    unfold score_nonneg. cbn. rewrite nonneg_class_leb.
    destruct (of_int_nonneg _ b2 (square_nonneg _) Hb) as [Hn Hfin].
    now apply SFdiv_nonneg.
  - intros Hex. rewrite (check_preference_failure env node timeout w ex Hp Hex).
    do 2 eexists. split; reflexivity.
Qed.

Lemma check_preference_nonnegative_witness :
  exists s w',
    check_preference Scenario.env_a_down Scenario.node_a (PyFloat.lit 5) Scenario.world0
      = (Ok s, w')
    /\ score_nonneg s = true.
Proof.
  apply (check_preference_nonnegative Scenario.env_a_down Scenario.node_a
           (PyFloat.lit 5) Scenario.world0).
  vm_compute. reflexivity.
Defined.

(** C7. For every node whose probe raises an [Exception] (a timeout, a
    connection error, a protocol error, ...), [check_preference] catches
    it, writes "ping failed: " and the failure to the error stream and
    returns the score 0; the run is not over: wherever the node stands in
    the list, the comprehension of [main] goes on with the nodes after it
    from the world so reached, and lists the failed node with score 0 in
    front of their results. *)
Theorem probe_failure_scores_zero_and_run_continues
    env (node : Node.t) (config : Config.t) (w : World) (ex : exn)
    (rest : list Node.t) :
  ping env (pings w) (Node.host node) (Node.port node) (Config.timeout config) = Err ex ->
  is_Exception ex = true ->
  let w' := mkWorld (stdout w) (stderr w ++ [("ping failed: " ++ exn_msg ex)%string])
                    (S (pings w)) (remote w) (api_log w) in
  check_preference env node (Config.timeout config) w = (Ok IntZero, w')
  /\ comprehension (probe_one env config) (node :: rest) w =
       (result_map (cons (node, IntZero))
          (fst (comprehension (probe_one env config) rest w')),
        snd (comprehension (probe_one env config) rest w')).
Proof.
  intros Hp Hex w'.
  pose proof (check_preference_failure env node (Config.timeout config) w ex Hp Hex) as H.
  split; [exact H|].
  cbn [comprehension].
  unfold bind at 1. unfold probe_one at 1. unfold bind at 1. rewrite H.
  unfold ret at 1. fold w'. unfold bind.
  destruct (comprehension (probe_one env config) rest w') as [[ys|e] w'']; reflexivity.
Qed.

(** Node a of the scenario times out and node b is still probed. *)
Lemma probe_failure_scores_zero_and_run_continues_witness :
  probe_all Scenario.env_a_down Scenario.config Scenario.world0 =
    (Ok [(Scenario.node_a, IntZero); (Scenario.node_b, Float (PyFloat.lit 25))],
     mkWorld [] ["ping failed: timed out"%string] 2 Scenario.remote0 []).
Proof.
  destruct (probe_failure_scores_zero_and_run_continues
              Scenario.env_a_down Scenario.node_a Scenario.config Scenario.world0
              (Raise TimeoutError "timed out") [Scenario.node_b])
    as [_ H].
  - reflexivity.
  - reflexivity.
  - unfold probe_all. change (Config.nodes Scenario.config)
      with [Scenario.node_a; Scenario.node_b].
    rewrite H. vm_compute. reflexivity.
Defined.

(** ** [concat_domain] *)

Lemma removesuffix_dot (s : string) : Str.removesuffix s "." = strip_dot s.
Proof.
  unfold Str.removesuffix, Str.endswith.
  induction s as [|c rest IH]; [reflexivity|].
  destruct rest as [|d rest'].
  - cbn. destruct (Ascii.eqb_spec c "."); subst; reflexivity.
  - cbn [String.length Nat.sub strip_dot] in *.
    change (String.eqb "." "") with false in *. cbn [negb andb] in *.
    change (1 <=? S (S (String.length rest')))%nat with true.
    change (1 <=? S (String.length rest'))%nat with true in IH.
    cbn [andb] in *. rewrite Nat.sub_0_r in *.
    change (substring (S (String.length rest')) 1 (String c (String d rest')))
      with (substring (String.length rest') 1 (String d rest')).
    change (substring 0 (S (String.length rest')) (String c (String d rest')))
      with (String c (substring 0 (String.length rest') (String d rest'))).
    destruct (String.eqb _ "."); now rewrite <- IH.
Qed.

Lemma dangling_dot_cons (c : ascii) (rest : string) :
  dangling_dot (String c rest) =
    match rest with
    | EmptyString => Ascii.eqb c "."
    | _ => dangling_dot rest
    end.
Proof.
  unfold dangling_dot, Str.endswith. destruct rest as [|d rest'].
  - cbn. now destruct (Ascii.eqb c ".").
  - cbn [String.length Nat.sub].
    change (1 <=? S (S (String.length rest')))%nat with true.
    change (1 <=? S (String.length rest'))%nat with true.
    rewrite Nat.sub_0_r. reflexivity.
Qed.

Lemma split_cons (sep : ascii) (s : string) :
  exists hd tl, Str.split sep s = hd :: tl.
Proof.
  induction s as [|c rest (hd & tl & IH)]; cbn; [eauto|].
  destruct (Ascii.eqb c sep); [eauto|]. rewrite IH. eauto.
Qed.

Lemma append_cons (c : ascii) (a b : string) :
  (String c a ++ b)%string = String c (a ++ b)%string.
Proof. reflexivity. Qed.

Lemma split_app (sep : ascii) (a b : string) :
  Str.split sep (a ++ String sep b) = Str.split sep a ++ Str.split sep b.
Proof.
  induction a as [|c a IH].
  - change (Str.split sep (String sep b) = [EmptyString] ++ Str.split sep b).
    cbn. now rewrite Ascii.eqb_refl.
  - rewrite append_cons. cbn [Str.split].
    destruct (Ascii.eqb c sep); [now rewrite IH|].
    rewrite IH. destruct (split_cons sep a) as (hd & tl & ->). reflexivity.
Qed.

Lemma no_empty_label_app (a b : string) :
  no_empty_label (a ++ String "." b) = no_empty_label a && no_empty_label b.
Proof. unfold no_empty_label. now rewrite split_app, forallb_app. Qed.

Lemma no_empty_label_join (parts : list string) :
  parts <> [] ->
  no_empty_label (Str.join "." parts) = forallb no_empty_label parts.
Proof.
  induction parts as [|a parts IH]; [congruence|]. intros _.
  destruct parts as [|b parts].
  - cbn. now rewrite andb_true_r.
  - change (Str.join "." (a :: b :: parts))
      with (a ++ String "." (Str.join "." (b :: parts)))%string.
    rewrite no_empty_label_app, IH by discriminate. reflexivity.
Qed.

(** All labels after the first are non-empty. *)
Lemma later_labels_clean (s : string) :
  forallb (fun l => negb (String.eqb l "")) (tl (Str.split "." s)) = true ->
  doubled_dot s = false /\ dangling_dot s = false.
Proof.
  induction s as [|c rest IH]; [now split|].
  rewrite dangling_dot_cons. cbn [Str.split doubled_dot].
  destruct (Ascii.eqb_spec c ".") as [->|Hc].
  - cbn [tl]. intros H.
    destruct rest as [|d rest']; [discriminate|].
    cbn [Str.split] in H, IH.
    destruct (Ascii.eqb_spec d ".") as [->|Hd]; [discriminate|].
    destruct (split_cons "." rest') as (hd & tl' & E). rewrite E in H, IH.
    cbn in H, IH. destruct (IH H) as [IH1 IH2].
    cbn [andb orb]. split; assumption.
  - destruct (split_cons "." rest) as (hd & tl' & E). rewrite E in *.
    cbn [tl]. intros H. destruct (IH H) as [IH1 IH2].
    cbn [andb orb]. split; [assumption|].
    destruct rest; [reflexivity | assumption].
Qed.

Lemma no_empty_label_clean (s : string) :
  no_empty_label s = true -> doubled_dot s = false /\ dangling_dot s = false.
Proof.
  unfold no_empty_label. intros H. apply later_labels_clean.
  destruct (split_cons "." s) as (hd & tl' & E). rewrite E in *.
  cbn in *. now apply andb_true_iff in H as [_ H].
Qed.

(** C8 as stated fails: an empty component (here the base subdomain of
    an apex record) gives a doubled separator, a component with two
    trailing dots keeps one of them, and an empty last component leaves
    a dangling dot. *)
Lemma concat_domain_doubled_separator :
  concat_domain ["_minecraft._tcp"; ""; "example.com"]%string
    = "_minecraft._tcp..example.com"%string
  /\ doubled_dot (concat_domain ["_minecraft._tcp"; ""; "example.com"]%string) = true
  /\ concat_domain ["a.."; "b"]%string = "a..b"%string
  /\ doubled_dot (concat_domain ["a.."; "b"]%string) = true
  /\ concat_domain ["a"; ""]%string = "a."%string
  /\ dangling_dot (concat_domain ["a"; ""]%string) = true.
Proof. repeat split; vm_compute; reflexivity. Qed.

(** C8, amended. For every tuple of components, [concat_domain]
    removes one trailing "." (if there is one) from each component and
    joins the results with ".".  When there is at least one component
    and every component, once stripped, is a dotted name without empty
    label, the result has no empty label either: no doubled separator
    and no dangling dot.  In particular [concat_domain("a.", "b",
    "c.")] equals [concat_domain("a", "b", "c")]. *)
Theorem concat_domain_strips_one_trailing_dot (parts : list string) :
  concat_domain parts = Str.join "." (map strip_dot parts)
  /\ (parts <> [] ->
      Forall (fun part => no_empty_label (strip_dot part) = true) parts ->
      doubled_dot (concat_domain parts) = false
      /\ dangling_dot (concat_domain parts) = false)
  /\ concat_domain ["a."; "b"; "c."]%string = concat_domain ["a"; "b"; "c"]%string.
Proof.
  assert (E : concat_domain parts = Str.join "." (map strip_dot parts)).
  { unfold concat_domain. f_equal. apply map_ext. intros p. apply removesuffix_dot. }
  split; [exact E|]. split; [|reflexivity].
  intros Hne Hparts.
  assert (H : no_empty_label (concat_domain parts) = true).
  { rewrite E, no_empty_label_join by (destruct parts; [congruence | discriminate]).
    rewrite forallb_forall. intros s Hs. apply in_map_iff in Hs as (p & <- & Hp).
    rewrite Forall_forall in Hparts. apply Hparts. now apply list_elem_of_In. }
  exact (no_empty_label_clean _ H).
Qed.

(** The name built for the alias of node a in a zone whose name ends
    with a dot. *)
Lemma concat_domain_strips_one_trailing_dot_witness :
  concat_domain ["_minecraft._tcp"; "a.mc"; "example.com."]%string
    = "_minecraft._tcp.a.mc.example.com"%string
  /\ doubled_dot (concat_domain ["_minecraft._tcp"; "a.mc"; "example.com."]%string) = false
  /\ dangling_dot (concat_domain ["_minecraft._tcp"; "a.mc"; "example.com."]%string) = false.
Proof.
  destruct (concat_domain_strips_one_trailing_dot
              ["_minecraft._tcp"; "a.mc"; "example.com."]%string)
    as (H1 & H2 & _).
  destruct H2 as [H2 H3].
  - discriminate.
  - repeat constructor.
  - split; [rewrite H1; reflexivity | split; assumption].
Defined.

(** ** Validation *)

Lemma size_list_to_set_le (l : list string) :
  (size (list_to_set l : gset string) <= length l)%nat.
Proof.
  induction l as [|x l IH]; [now rewrite list_to_set_nil, size_empty|].
  rewrite list_to_set_cons, size_union_alt, size_singleton. cbn.
  assert (Hsub : (list_to_set l ∖ {[x]} : gset string) ⊆ list_to_set l).
  { intros y Hy. now apply elem_of_difference in Hy as [Hy _]. }
  apply subseteq_size in Hsub. lia.
Qed.

(** [len(set(l)) == len(l)] holds exactly when [l] has no duplicate. *)
Lemma len_set_NoDup (l : list string) :
  size (list_to_set l : gset string) = length l <-> NoDup l.
Proof.
  split; [|apply size_list_to_set].
  induction l as [|x l IH]; intros H; [constructor|].
  destruct (decide (x ∈ l)) as [Hin|Hout].
  - exfalso. rewrite list_to_set_cons in H.
    assert (E : ({[x]} ∪ list_to_set l : gset string) = list_to_set l).
    { apply subseteq_union_1_L. intros y Hy. apply elem_of_singleton in Hy as ->.
      now apply elem_of_list_to_set. }
    rewrite E in H. pose proof (size_list_to_set_le l). cbn in H. lia.
  - constructor; [exact Hout|]. apply IH.
    rewrite list_to_set_cons, size_union, size_singleton in H.
    + cbn in H. lia.
    + intros y Hy Hy'. apply elem_of_singleton in Hy as ->.
      now apply elem_of_list_to_set in Hy'.
Qed.

Lemma ip_address_raises_ValueError (s : string) (ex : exn) :
  ipaddress.ip_address s = Err ex -> exn_class_of ex = ValueError.
Proof.
  unfold ipaddress.ip_address.
  destruct (ipaddress.v4_init s); [discriminate|].
  destruct (ipaddress.v6_init s); [discriminate|].
  now intros [= <-].
Qed.

Lemma Node_validate_is_Ok (n : Node.t) :
  is_Ok (Node.validate n) = negb (is_Ok (ipaddress.ip_address (Node.host n))).
Proof.
  unfold Node.validate, field_validator, Node.check_host.
  destruct (ipaddress.ip_address (Node.host n)) as [a|ex] eqn:E; [reflexivity|].
  now rewrite (ip_address_raises_ValueError _ _ E).
Qed.

Lemma Node_validate_raises (n : Node.t) (ex : exn) :
  Node.validate n = Err ex -> exn_class_of ex = ValidationError.
Proof.
  unfold Node.validate, field_validator, Node.check_host.
  destruct (ipaddress.ip_address (Node.host n)) as [a|ex'] eqn:E.
  - now intros [= <-].
  - now rewrite (ip_address_raises_ValueError _ _ E).
Qed.

Lemma validate_nodes_is_Ok (ns : list Node.t) :
  is_Ok (Config.validate_nodes ns) = true
  <-> Forall (fun n => is_Ok (ipaddress.ip_address (Node.host n)) = false) ns.
Proof.
  induction ns as [|n ns IH]; cbn; [split; [constructor | reflexivity]|].
  rewrite Forall_cons, <- IH.
  pose proof (Node_validate_is_Ok n) as Hn.
  destruct (Node.validate n), (Config.validate_nodes ns),
    (is_Ok (ipaddress.ip_address (Node.host n)));
    cbn in *; intuition congruence.
Qed.

Lemma validate_nodes_raises (ns : list Node.t) (ex : exn) :
  Config.validate_nodes ns = Err ex -> exn_class_of ex = ValidationError.
Proof.
  revert ex. induction ns as [|n ns IH]; cbn; intros ex; [discriminate|].
  destruct (Node.validate n) as [n'|e1] eqn:E1,
           (Config.validate_nodes ns) as [ns'|e2] eqn:E2; intros [= <-].
  - now apply IH.
  - now apply (Node_validate_raises n).
  - now apply (Node_validate_raises n).
Qed.

Lemma Config_validate_is_Ok (raw : Config.t) :
  is_Ok (Config.validate raw) = true
  <-> NoDup (map Node.subdomain (Config.nodes raw))
      /\ Forall (fun n => is_Ok (ipaddress.ip_address (Node.host n)) = false)
                (Config.nodes raw).
Proof.
  rewrite <- validate_nodes_is_Ok, <- len_set_NoDup.
  unfold Config.validate, field_validator, Config.check_nodes.
  destruct (Config.validate_nodes (Config.nodes raw)) as [ns|ex] eqn:E; cbn.
  - apply validate_nodes_ok in E. subst ns.
    destruct (bool_decide_reflect
                (size (list_to_set (map Node.subdomain (Config.nodes raw)) : gset string)
                 = length (map Node.subdomain (Config.nodes raw)))); cbn; intuition congruence.
  - intuition congruence.
Qed.

Lemma Config_validate_raises (raw : Config.t) (ex : exn) :
  Config.validate raw = Err ex -> exn_class_of ex = ValidationError.
Proof.
  unfold Config.validate, field_validator, Config.check_nodes.
  destruct (Config.validate_nodes (Config.nodes raw)) as [ns|e] eqn:E.
  - destruct (bool_decide _); [discriminate|]. now intros [= <-].
  - intros [= <-]. now apply (validate_nodes_raises _ _ E).
Qed.

(** C9. Validation of a configuration succeeds exactly when the
    subdomains of its nodes are pairwise distinct and no node's host
    parses as an IP address; so it fails whenever two nodes share a
    subdomain or a host is an IPv4 or IPv6 literal, and then the run
    ends with a [ValidationError] in the world it started in: no probe
    sent, no request made, nothing printed.  "127.0.0.1" and "::1" parse
    as addresses, and the two configurations that differ from the
    scenario's by a repeated subdomain and by such a host are
    rejected. *)
Theorem validation_rejects_duplicates_and_ip_hosts (raw : Config.t) :
  (is_Ok (Config.validate raw) = true
   <-> NoDup (map Node.subdomain (Config.nodes raw))
       /\ Forall (fun n => is_Ok (ipaddress.ip_address (Node.host n)) = false)
                 (Config.nodes raw))
  /\ (forall env w,
        config_file env = Ok raw ->
        is_Ok (Config.validate raw) = false ->
        exists ex, main env w = (Err ex, w) /\ exn_class_of ex = ValidationError)
  /\ is_Ok (ipaddress.ip_address "127.0.0.1") = true
  /\ is_Ok (ipaddress.ip_address "::1") = true
  /\ is_Ok (Config.validate
              (Config.mk "token" "zone-1" "mc"
                 [Scenario.node_a; Node.mk "a" "b.example.com" 25565 5] (PyFloat.lit 5)))
     = false
  /\ is_Ok (Config.validate
              (Config.mk "token" "zone-1" "mc"
                 [Scenario.node_a; Node.mk "b" "127.0.0.1" 25565 5] (PyFloat.lit 5)))
     = false
  /\ is_Ok (Config.validate
              (Config.mk "token" "zone-1" "mc"
                 [Scenario.node_a; Node.mk "b" "::1" 25565 5] (PyFloat.lit 5)))
     = false.
Proof.
  split; [apply Config_validate_is_Ok|]. split.
  - intros env w Hf Hv.
    destruct (Config.validate raw) as [c|ex] eqn:E; [discriminate|].
    exists ex. split; [|now apply (Config_validate_raises raw)].
    unfold main, read_config. rewrite Hf, E. reflexivity.
  - repeat split; vm_compute; reflexivity.
Qed.

(** ** [update_record] *)

Lemma request_served {A} env (ev : api_event) (serve : Remote -> result A * Remote) w :
  api_fault env (length (api_log w)) = false ->
  Cloudflare.request env ev serve w =
    (fst (serve (remote w)),
     mkWorld (stdout w) (stderr w) (pings w) (snd (serve (remote w))) (api_log w ++ [ev])).
Proof.
  intros Hf. unfold Cloudflare.request. rewrite Hf.
  now destruct (serve (remote w)).
Qed.

Lemma request_logged {A} env (ev : api_event) (serve : Remote -> result A * Remote) w :
  api_log (snd (Cloudflare.request env ev serve w)) = api_log w ++ [ev].
Proof.
  unfold Cloudflare.request. destruct (api_fault env _); [reflexivity|].
  now destruct (serve (remote w)).
Qed.

(** The world in which the commit request is made: zone looked up,
    progress line printed, records listed. *)
Lemma update_record_until_commit env c zone_id subdomain host port w zone :
  Cloudflare.lookup_zone zone_id (zones (remote w)) = Some (Some zone) ->
  api_fault env (length (api_log w)) = false ->
  api_fault env (S (length (api_log w))) = false ->
  let fqdn := concat_domain ["_minecraft._tcp"%string; subdomain; Zone.name zone] in
  let data := Data.mk host port 0 0 in
  let w' := mkWorld (stdout w ++ [Updating fqdn host port]) (stderr w) (pings w) (remote w)
              ((api_log w ++ [ZonesGet zone_id]) ++ [RecordsList zone_id fqdn "SRV" 1]) in
  update_record env c zone_id subdomain host port w =
    bind (match listing (remote w) zone_id fqdn with
          | first :: _ =>
              Cloudflare.records_update env c (DnsRecord.id first) zone_id fqdn data "SRV"
          | [] => Cloudflare.records_create env c zone_id fqdn data "SRV"
          end)
         (fun _ => print (Updated fqdn)) w'.
Proof.
  intros Hz F0 F1 fqdn data w'.
  unfold update_record, Cloudflare.zones_get.
  unfold bind at 1. rewrite (request_served env _ _ w F0). rewrite Hz. cbn [fst snd].
  unfold bind at 1. unfold print at 1.
  unfold bind at 1. unfold Cloudflare.records_list.
  rewrite request_served by (cbn; now rewrite length_app, Nat.add_1_r).
  cbn [fst snd remote stdout stderr pings api_log].
  fold fqdn. fold data. fold (listing (remote w) zone_id fqdn).
  destruct (listing (remote w) zone_id fqdn); reflexivity.
Qed.

Lemma listing_owned r zone_id fqdn first rest :
  listing r zone_id fqdn = first :: rest ->
  existsb (Cloudflare.owns (DnsRecord.id first) zone_id) (records r) = true.
Proof.
  unfold listing. intros H.
  assert (Hin : In first (List.filter (Cloudflare.matches zone_id fqdn "SRV") (records r))).
  { destruct (List.filter _ _) as [|x l]; [discriminate|].
    cbn in H. injection H as -> _. now left. }
  apply filter_In in Hin as [Hin Hm]. apply existsb_exists. exists first. split; [exact Hin|].
  unfold Cloudflare.owns, Cloudflare.matches in *.
  rewrite Nat.eqb_refl. cbn.
  now apply andb_true_iff in Hm as [Hm%andb_true_iff _].
Qed.

(** After the overwrite the listing finds the overwritten record. *)
Lemma listing_after_update recs zone_id fqdn data first rest i :
  firstn 1 (List.filter (Cloudflare.matches zone_id fqdn "SRV") recs) = first :: rest ->
  i = DnsRecord.id first ->
  firstn 1 (List.filter (Cloudflare.matches zone_id fqdn "SRV")
              (map (fun x => if Cloudflare.owns i zone_id x
                             then DnsRecord.mk i zone_id fqdn "SRV" data else x)
                   recs))
  = [DnsRecord.mk i zone_id fqdn "SRV" data].
Proof.
  intros H ->.
  assert (HR : Cloudflare.matches zone_id fqdn "SRV"
                 (DnsRecord.mk (DnsRecord.id first) zone_id fqdn "SRV" data) = true).
  { unfold Cloudflare.matches. cbn. now rewrite !String.eqb_refl. }
  induction recs as [|x recs IH]; [discriminate|].
  cbn [map List.filter] in *.
  destruct (Cloudflare.matches zone_id fqdn "SRV" x) eqn:Hx.
  - cbn in H. injection H as -> _.
    assert (Ho : Cloudflare.owns (DnsRecord.id first) zone_id first = true).
    { unfold Cloudflare.owns, Cloudflare.matches in *. rewrite Nat.eqb_refl. cbn.
      now apply andb_true_iff in Hx as [Hx%andb_true_iff _]. }
    rewrite Ho, HR. reflexivity.
  - destruct (Cloudflare.owns (DnsRecord.id first) zone_id x).
    + rewrite HR. reflexivity.
    + rewrite Hx. now apply IH.
Qed.

Lemma overwrite_twice recs zone_id fqdn data i :
  let put := fun x => if Cloudflare.owns i zone_id x
                      then DnsRecord.mk i zone_id fqdn "SRV" data else x in
  map put (map put recs) = map put recs.
Proof.
  intros put. rewrite map_map. apply map_ext. intros x. unfold put.
  destruct (Cloudflare.owns i zone_id x) eqn:E; [|now rewrite E].
  unfold Cloudflare.owns. cbn. now rewrite Nat.eqb_refl, String.eqb_refl.
Qed.

Lemma overwrite_fresh recs zone_id (R : DnsRecord.t) i :
  Forall (fun x => (DnsRecord.id x < i)%nat) recs ->
  map (fun x => if Cloudflare.owns i zone_id x then R else x) recs = recs.
Proof.
  intros H. induction H as [|x recs Hx _ IH]; [reflexivity|].
  cbn. rewrite IH. unfold Cloudflare.owns.
  destruct (Nat.eqb_spec (DnsRecord.id x) i); [lia | reflexivity].
Qed.

Lemma firstn_1_nil {A} (l : list A) : firstn 1 l = [] -> l = [].
Proof. destruct l; [reflexivity | discriminate]. Qed.

(** One reconciliation with every request served. *)
Lemma update_record_served env c zone_id subdomain host port w zone :
  Cloudflare.lookup_zone zone_id (zones (remote w)) = Some (Some zone) ->
  (forall k, (length (api_log w) <= k)%nat -> api_fault env k = false) ->
  let fqdn := concat_domain ["_minecraft._tcp"%string; subdomain; Zone.name zone] in
  let data := Data.mk host port 0 0 in
  update_record env c zone_id subdomain host port w =
    (Ok tt,
     mkWorld (stdout w ++ [Updating fqdn host port; Updated fqdn]) (stderr w) (pings w)
       (match listing (remote w) zone_id fqdn with
        | first :: _ =>
            mkRemote (zones (remote w))
              (map (fun x => if Cloudflare.owns (DnsRecord.id first) zone_id x
                             then DnsRecord.mk (DnsRecord.id first) zone_id fqdn "SRV" data
                             else x)
                   (records (remote w)))
              (next_id (remote w))
        | [] =>
            mkRemote (zones (remote w))
              (records (remote w)
                 ++ [DnsRecord.mk (next_id (remote w)) zone_id fqdn "SRV" data])
              (S (next_id (remote w)))
        end)
       (api_log w ++ [ZonesGet zone_id; RecordsList zone_id fqdn "SRV" 1;
                      match listing (remote w) zone_id fqdn with
                      | first :: _ =>
                          RecordsUpdate (DnsRecord.id first) zone_id fqdn data "SRV"
                      | [] => RecordsCreate zone_id fqdn data "SRV"
                      end])).
Proof.
  intros Hz Hf fqdn data.
  rewrite (update_record_until_commit env c zone_id subdomain host port w zone Hz)
    by (apply Hf; lia).
  fold fqdn. fold data. clearbody fqdn data.
  destruct (listing (remote w) zone_id fqdn) as [|first rest] eqn:El.
  - unfold bind, Cloudflare.records_create, print.
    rewrite request_served by (apply Hf; cbn; rewrite !length_app; lia).
    cbn. now rewrite <- !app_assoc.
  - unfold bind, Cloudflare.records_update, print.
    rewrite request_served by (apply Hf; cbn; rewrite !length_app; lia).
    cbn [remote fst snd]. rewrite (listing_owned _ _ _ _ _ El).
    cbn. now rewrite <- !app_assoc.
Qed.

Lemma update_record_requests env c zone_id subdomain host port w zone :
  Cloudflare.lookup_zone zone_id (zones (remote w)) = Some (Some zone) ->
  api_fault env (length (api_log w)) = false ->
  api_fault env (S (length (api_log w))) = false ->
  let fqdn := concat_domain ["_minecraft._tcp"%string; subdomain; Zone.name zone] in
  let data := Data.mk host port 0 0 in
  api_log (snd (update_record env c zone_id subdomain host port w)) =
    api_log w ++ [ZonesGet zone_id; RecordsList zone_id fqdn "SRV" 1;
                  match listing (remote w) zone_id fqdn with
                  | first :: _ => RecordsUpdate (DnsRecord.id first) zone_id fqdn data "SRV"
                  | [] => RecordsCreate zone_id fqdn data "SRV"
                  end].
Proof.
  intros Hz F0 F1 fqdn data.
  rewrite (update_record_until_commit env c zone_id subdomain host port w zone Hz F0 F1).
  fold fqdn. fold data. clearbody fqdn data.
  set (w' := mkWorld _ _ _ _ _).
  assert (G : forall ev serve,
             api_log (snd (bind (Cloudflare.request env ev serve)
                                (fun _ : unit => print (Updated fqdn)) w'))
             = api_log w' ++ [ev]).
  { intros ev serve. unfold bind.
    pose proof (request_logged env ev serve w') as Hl.
    destruct (Cloudflare.request env ev serve w') as [[[]|ex] w'']; exact Hl. }
  destruct (listing (remote w) zone_id fqdn) as [|first rest];
    [unfold Cloudflare.records_create | unfold Cloudflare.records_update];
    rewrite G; subst w'; cbn; now rewrite <- !app_assoc.
Qed.

(** C3. For every call of [update_record] in which the zone lookup
    answers with a zone and the listing is served: the call makes three
    requests, the lookup, the listing of the exact name with type SRV
    and page size 1, and one write, which is an update of the listed
    record's identity when the listing is not empty and a create when it
    is; either write carries the data target = host, port = port,
    priority 0, weight 0.  When moreover no request fails and the
    provider hands out fresh identities, the call succeeds, the listing
    then finds one record, holding that data, a second call with the
    same arguments succeeds by one update of that record, and the
    provider's state after the second call is the state after the
    first. *)
Theorem update_record_creates_or_updates
    env (c : Cloudflare.t) (zone_id subdomain host : string) (port : Z)
    (w : World) (zone : Zone.t) :
  Cloudflare.lookup_zone zone_id (zones (remote w)) = Some (Some zone) ->
  api_fault env (length (api_log w)) = false ->
  api_fault env (S (length (api_log w))) = false ->
  let fqdn := concat_domain ["_minecraft._tcp"%string; subdomain; Zone.name zone] in
  let data := Data.mk host port 0 0 in
  let w1 := snd (update_record env c zone_id subdomain host port w) in
  let w2 := snd (update_record env c zone_id subdomain host port w1) in
  api_log w1 =
    api_log w ++ [ZonesGet zone_id; RecordsList zone_id fqdn "SRV" 1;
                  match listing (remote w) zone_id fqdn with
                  | first :: _ => RecordsUpdate (DnsRecord.id first) zone_id fqdn data "SRV"
                  | [] => RecordsCreate zone_id fqdn data "SRV"
                  end]
  /\ ((forall k, (length (api_log w) <= k)%nat -> api_fault env k = false) ->
      fresh_ids (remote w) ->
      fst (update_record env c zone_id subdomain host port w) = Ok tt
      /\ fst (update_record env c zone_id subdomain host port w1) = Ok tt
      /\ (exists i,
            listing (remote w1) zone_id fqdn = [DnsRecord.mk i zone_id fqdn "SRV" data]
            /\ api_log w2 =
                 api_log w1 ++ [ZonesGet zone_id; RecordsList zone_id fqdn "SRV" 1;
                                RecordsUpdate i zone_id fqdn data "SRV"])
      /\ remote w2 = remote w1).
Proof.
  intros Hz F0 F1 fqdn data w1 w2.
  split; [apply (update_record_requests env c zone_id subdomain host port w zone Hz F0 F1)|].
  intros Hf Hfresh.
  pose proof (update_record_served env c zone_id subdomain host port w zone Hz Hf) as E1.
  fold fqdn in E1. fold data in E1.
  assert (Hz1 : Cloudflare.lookup_zone zone_id (zones (remote w1)) = Some (Some zone)).
  { subst w1. rewrite E1. cbn [snd remote].
    now destruct (listing (remote w) zone_id fqdn). }
  assert (Hf1 : forall k, (length (api_log w1) <= k)%nat -> api_fault env k = false).
  { intros k Hk. apply Hf. subst w1. rewrite E1 in Hk. cbn [snd api_log] in Hk.
    rewrite length_app in Hk. lia. }
  pose proof (update_record_served env c zone_id subdomain host port w1 zone Hz1 Hf1) as E2.
  fold fqdn in E2. fold data in E2.
  assert (Hl : exists i,
             listing (remote w1) zone_id fqdn = [DnsRecord.mk i zone_id fqdn "SRV" data]
             /\ map (fun x => if Cloudflare.owns i zone_id x
                              then DnsRecord.mk i zone_id fqdn "SRV" data else x)
                    (records (remote w1))
                = records (remote w1)).
  { subst w1. rewrite E1. cbn [snd remote]. clear E2 Hz1 Hf1 w2.
    destruct (listing (remote w) zone_id fqdn) as [|first rest] eqn:El.
    - exists (next_id (remote w)). unfold listing in *. cbn [records].
      apply firstn_1_nil in El. rewrite List.filter_app, El. cbn [List.filter app].
      assert (HR : Cloudflare.matches zone_id fqdn "SRV"
                     (DnsRecord.mk (next_id (remote w)) zone_id fqdn "SRV" data) = true).
      { unfold Cloudflare.matches. cbn. now rewrite !String.eqb_refl. }
      rewrite HR. split; [reflexivity|].
      rewrite map_app, overwrite_fresh by exact Hfresh. cbn.
      unfold Cloudflare.owns. cbn. now rewrite Nat.eqb_refl, String.eqb_refl.
    - exists (DnsRecord.id first). unfold listing in *. cbn [records]. split.
      + now apply (listing_after_update _ _ _ _ first rest).
      + apply overwrite_twice. }
  destruct Hl as (i & Hl & Hsame).
  split; [now rewrite E1|]. subst w2. rewrite E2, Hl.
  cbn [fst snd api_log remote DnsRecord.id].
  split; [reflexivity|]. split.
  - exists i. split; reflexivity.
  - rewrite Hsame. now destruct (remote w1).
Qed.

(** The first reconciliation of node a's alias in the scenario: a
    create, then an update of the record created. *)
Lemma update_record_creates_or_updates_witness :
  let fqdn := "_minecraft._tcp.a.mc.example.com"%string in
  let data := Data.mk "a.example.com" 25565 0 0 in
  let w1 := snd (update_record Scenario.env_up Scenario.cloudflare "zone-1" "a.mc"
                   "a.example.com" 25565 Scenario.world0) in
  let w2 := snd (update_record Scenario.env_up Scenario.cloudflare "zone-1" "a.mc"
                   "a.example.com" 25565 w1) in
  api_log w1 = [ZonesGet "zone-1"; RecordsList "zone-1" fqdn "SRV" 1;
                RecordsCreate "zone-1" fqdn data "SRV"]
  /\ api_log w2 = api_log w1 ++ [ZonesGet "zone-1"; RecordsList "zone-1" fqdn "SRV" 1;
                                 RecordsUpdate 0 "zone-1" fqdn data "SRV"]
  /\ remote w2 = remote w1.
Proof.
  destruct (update_record_creates_or_updates Scenario.env_up Scenario.cloudflare
              "zone-1" "a.mc" "a.example.com" 25565 Scenario.world0
              (Zone.mk "example.com"))
    as [H1 H2].
  - reflexivity.
  - reflexivity.
  - reflexivity.
  - destruct H2 as (_ & _ & _ & H3).
    + intros k _. reflexivity.
    + constructor.
    + split; [vm_compute; reflexivity|]. split; [vm_compute; reflexivity | exact H3].
Defined.

(** ** The scenarios, run

    Both nodes answer: three creates, aliases first and the winner, node
    a, last.  Node a down: node b is selected and the base record points
    at its host. *)

Example run_both_up :
  main Scenario.env_up Scenario.world0 =
    (Ok tt,
     mkWorld
       [Tested [(Scenario.node_a, Float (PyFloat.lit 50));
                (Scenario.node_b, Float (PyFloat.lit 25))];
        Selected Scenario.node_a;
        Updating "_minecraft._tcp.a.mc.example.com" "a.example.com" 25565;
        Updated "_minecraft._tcp.a.mc.example.com";
        Updating "_minecraft._tcp.b.mc.example.com" "b.example.com" 25565;
        Updated "_minecraft._tcp.b.mc.example.com";
        Updating "_minecraft._tcp.mc.example.com" "a.example.com" 25565;
        Updated "_minecraft._tcp.mc.example.com"]
       [] 2
       (mkRemote [("zone-1"%string, Some (Zone.mk "example.com"))]
          [DnsRecord.mk 0 "zone-1" "_minecraft._tcp.a.mc.example.com" "SRV"
             (Data.mk "a.example.com" 25565 0 0);
           DnsRecord.mk 1 "zone-1" "_minecraft._tcp.b.mc.example.com" "SRV"
             (Data.mk "b.example.com" 25565 0 0);
           DnsRecord.mk 2 "zone-1" "_minecraft._tcp.mc.example.com" "SRV"
             (Data.mk "a.example.com" 25565 0 0)]
          3)
       [ClientEnter "token";
        ZonesGet "zone-1";
        RecordsList "zone-1" "_minecraft._tcp.a.mc.example.com" "SRV" 1;
        RecordsCreate "zone-1" "_minecraft._tcp.a.mc.example.com"
          (Data.mk "a.example.com" 25565 0 0) "SRV";
        ZonesGet "zone-1";
        RecordsList "zone-1" "_minecraft._tcp.b.mc.example.com" "SRV" 1;
        RecordsCreate "zone-1" "_minecraft._tcp.b.mc.example.com"
          (Data.mk "b.example.com" 25565 0 0) "SRV";
        ZonesGet "zone-1";
        RecordsList "zone-1" "_minecraft._tcp.mc.example.com" "SRV" 1;
        RecordsCreate "zone-1" "_minecraft._tcp.mc.example.com"
          (Data.mk "a.example.com" 25565 0 0) "SRV";
        ClientExit]).
Proof. vm_compute. reflexivity. Qed.

Example run_node_a_down :
  let w := snd (main Scenario.env_a_down Scenario.world0) in
  fst (main Scenario.env_a_down Scenario.world0) = Ok tt
  /\ stderr w = ["ping failed: timed out"%string]
  /\ nth_error (stdout w) 1 = Some (Selected Scenario.node_b)
  /\ map DnsRecord.data (records (remote w)) =
       [Data.mk "a.example.com" 25565 0 0;
        Data.mk "b.example.com" 25565 0 0;
        Data.mk "b.example.com" 25565 0 0].
Proof. repeat split; vm_compute; reflexivity. Qed.

(** A second run against the records of the first changes nothing at the
    provider: three updates of the three records. *)
Example run_twice_same_records :
  let w1 := snd (main Scenario.env_up Scenario.world0) in
  let w2 := snd (main Scenario.env_up (initial_world (remote w1))) in
  remote w2 = remote w1
  /\ List.filter is_mutation (api_log w2) =
       [RecordsUpdate 0 "zone-1" "_minecraft._tcp.a.mc.example.com"
          (Data.mk "a.example.com" 25565 0 0) "SRV";
        RecordsUpdate 1 "zone-1" "_minecraft._tcp.b.mc.example.com"
          (Data.mk "b.example.com" 25565 0 0) "SRV";
        RecordsUpdate 2 "zone-1" "_minecraft._tcp.mc.example.com"
          (Data.mk "a.example.com" 25565 0 0) "SRV"].
Proof. split; vm_compute; reflexivity. Qed.

(** * Further properties *)

(** ** Probing *)

(** X3. Whatever the probe does, one call of [check_preference] sends
    exactly one probe, prints nothing on standard output and leaves the
    provider and the request log alone; it writes to the error stream
    only when it returns the int 0, and then one line. *)
Theorem check_preference_effects env (node : Node.t) (timeout : PyFloat.t) (w : World) :
  let r := fst (check_preference env node timeout w) in
  let w' := snd (check_preference env node timeout w) in
  pings w' = S (pings w)
  /\ stdout w' = stdout w
  /\ remote w' = remote w
  /\ api_log w' = api_log w
  /\ (stderr w' = stderr w
      \/ (r = Ok IntZero /\ exists line, stderr w' = stderr w ++ [line])).
Proof.
  unfold check_preference, bind, try, JavaServer.ping, lift, eprint, ret, raise.
  destruct (ping env _ _ _ _) as [lat|ex]; cbn.
  - destruct (PyFloat.int_truediv _ _); cbn; repeat split; now left.
  - destruct (is_Exception ex); cbn; repeat split; try (now left).
    right. split; [reflexivity|]. eexists. reflexivity.
Qed.

(** X2. An exception of the probe that is not an [Exception] (a
    [KeyboardInterrupt]) is not caught: [check_preference] raises it and
    writes nothing, and the comprehension of [main] stops there, the
    nodes after it are not probed. *)
Theorem probe_base_exception_propagates
    env (node : Node.t) (config : Config.t) (w : World) (ex : exn)
    (rest : list Node.t) :
  ping env (pings w) (Node.host node) (Node.port node) (Config.timeout config) = Err ex ->
  is_Exception ex = false ->
  check_preference env node (Config.timeout config) w = (Err ex, probed w)
  /\ comprehension (probe_one env config) (node :: rest) w = (Err ex, probed w).
Proof.
  intros Hp Hex.
  assert (H : check_preference env node (Config.timeout config) w = (Err ex, probed w)).
  { unfold check_preference, bind, try, JavaServer.ping, raise. cbn.
    rewrite Hp, Hex. reflexivity. }
  split; [exact H|].
  cbn [comprehension]. unfold bind at 1. unfold probe_one at 1. unfold bind at 1.
  now rewrite H.
Qed.

Lemma probe_base_exception_propagates_witness :
  comprehension
    (probe_one (mkEnv (Ok Scenario.config)
                  (fun _ _ _ _ => Err (Raise KeyboardInterrupt ""))
                  Scenario.no_fault)
               Scenario.config)
    [Scenario.node_a; Scenario.node_b] Scenario.world0
  = (Err (Raise KeyboardInterrupt ""), probed Scenario.world0).
Proof.
  apply (probe_base_exception_propagates
           (mkEnv (Ok Scenario.config)
              (fun _ _ _ _ => Err (Raise KeyboardInterrupt ""))
              Scenario.no_fault)
           Scenario.node_a Scenario.config Scenario.world0
           (Raise KeyboardInterrupt "") [Scenario.node_b]).
  - reflexivity.
  - reflexivity.
Defined.

(** X4. When the probe succeeds, [check_preference] writes nothing and
    either returns a float or raises one of two errors of the division
    outside the [try]: [OverflowError], or [ZeroDivisionError], the
    latter only for a latency equal to zero; and a latency equal to
    zero never yields a score. *)
Theorem successful_probe_outcomes
    env (node : Node.t) (timeout : PyFloat.t) (w : World) (lat : PyFloat.t) :
  ping env (pings w) (Node.host node) (Node.port node) timeout = Ok lat ->
  snd (check_preference env node timeout w) = probed w
  /\ ((exists f, fst (check_preference env node timeout w) = Ok (Float f))
      \/ (exists ex, fst (check_preference env node timeout w) = Err ex
                     /\ (exn_class_of ex = OverflowError
                         \/ (exn_class_of ex = ZeroDivisionError
                             /\ PyFloat.eqb lat PyFloat.zero = true))))
  /\ (PyFloat.eqb lat PyFloat.zero = true ->
      is_Ok (fst (check_preference env node timeout w)) = false).
Proof.
  intros Hp. rewrite (check_preference_success env node timeout w lat Hp).
  cbn [fst snd]. split; [reflexivity|].
  unfold PyFloat.int_truediv, PyFloat.of_int, PyFloat.truediv.
  destruct (binary_normalize _ _ _ _ _) as [s|s| |s m e];
    destruct (PyFloat.eqb lat PyFloat.zero); cbn;
    (split; [|try reflexivity; try discriminate]);
    try (left; eexists; reflexivity);
    try (right; eexists; split; [reflexivity|]; cbn; tauto).
Qed.

Lemma successful_probe_outcomes_witness :
  snd (check_preference Scenario.env_zero_latency Scenario.node_a (PyFloat.lit 5)
         Scenario.world0) = probed Scenario.world0
  /\ is_Ok (fst (check_preference Scenario.env_zero_latency Scenario.node_a
                   (PyFloat.lit 5) Scenario.world0)) = false.
Proof.
  destruct (successful_probe_outcomes Scenario.env_zero_latency Scenario.node_a
              (PyFloat.lit 5) Scenario.world0 PyFloat.zero)
    as (H1 & _ & H3).
  - reflexivity.
  - split; [exact H1|]. apply H3. reflexivity.
Defined.

(** X5. A node declared with bandwidth 0 scores zero whenever its probe
    succeeds with a latency that is a number other than zero: it cannot
    be told from a node that is down. *)
Theorem zero_bandwidth_scores_zero
    env (node : Node.t) (timeout : PyFloat.t) (w : World) (lat : PyFloat.t) :
  Node.bandwidth node = 0 ->
  ping env (pings w) (Node.host node) (Node.port node) timeout = Ok lat ->
  PyFloat.is_nan lat = false ->
  PyFloat.eqb lat PyFloat.zero = false ->
  exists s, check_preference env node timeout w = (Ok s, probed w)
            /\ score_eq0 s = true.
Proof.
  intros Hb Hp Hnan Hnz.
  rewrite (check_preference_success env node timeout w lat Hp), Hb.
  unfold PyFloat.int_truediv, PyFloat.truediv. cbn [Z.pow PyFloat.of_int].
  change (PyFloat.of_int (0 ^ 2)) with (Ok PyFloat.zero : result PyFloat.t).
  rewrite Hnz. cbn.
  eexists. split; [reflexivity|].
  destruct lat as [s|s| |s m e]; try discriminate; reflexivity.
Qed.

Lemma zero_bandwidth_scores_zero_witness :
  exists s,
    check_preference Scenario.env_up (Node.mk "z" "z.example.com" 25565 0)
      (PyFloat.lit 5) Scenario.world0 = (Ok s, probed Scenario.world0)
    /\ score_eq0 s = true.
Proof.
  apply (zero_bandwidth_scores_zero Scenario.env_up
           (Node.mk "z" "z.example.com" 25565 0) (PyFloat.lit 5) Scenario.world0
           (PyFloat.lit 1)).
  - reflexivity.
  - reflexivity.
  - reflexivity.
  - reflexivity.
Defined.

Lemma check_preference_pings env node timeout w :
  pings (snd (check_preference env node timeout w)) = S (pings w).
Proof.
  unfold check_preference, bind, try, JavaServer.ping, lift, eprint, ret, raise.
  destruct (ping env _ _ _ _) as [lat|ex]; cbn.
  - destruct (PyFloat.int_truediv _ _); reflexivity.
  - destruct (is_Exception ex); reflexivity.
Qed.

Lemma probe_one_ok env config node w p w' :
  probe_one env config node w = (Ok p, w') ->
  fst p = node /\ pings w' = S (pings w).
Proof.
  unfold probe_one, bind, ret.
  pose proof (check_preference_pings env node (Config.timeout config) w) as Hp.
  destruct (check_preference env node (Config.timeout config) w) as [[s|ex] w1];
    [|discriminate].
  cbn in Hp. intros [= <- <-]. now split.
Qed.

Lemma comprehension_probe_one env config : forall ns w prefs w1,
  comprehension (probe_one env config) ns w = (Ok prefs, w1) ->
  map fst prefs = ns /\ pings w1 = (pings w + length ns)%nat.
Proof.
  induction ns as [|n ns IH]; intros w prefs w1; cbn [comprehension].
  - unfold ret. intros [= <- <-]. cbn. split; [reflexivity | lia].
  - unfold bind at 1.
    destruct (probe_one env config n w) as [[p|ex] w'] eqn:E1; [|discriminate].
    unfold bind at 1.
    destruct (comprehension (probe_one env config) ns w') as [[ps|ex] w''] eqn:E2;
      [|discriminate].
    unfold ret. intros [= <- <-].
    apply probe_one_ok in E1 as [E1 E1'].
    apply IH in E2 as [E2 E2'].
    cbn. split; [now rewrite E1, E2 | lia].
Qed.

Lemma probe_one_scored env config node w p w' :
  probe_one env config node w = (Ok p, w') ->
  scored_by (ping env (pings w) (Node.host node) (Node.port node) (Config.timeout config))
            (Node.bandwidth node) (snd p).
Proof.
  unfold probe_one, check_preference, bind, try, JavaServer.ping, lift, eprint, ret, raise,
    scored_by.
  cbn [JavaServer.host JavaServer.port JavaServer.timeout].
  destruct (ping env _ _ _ _) as [lat|ex]; cbn.
  - destruct (PyFloat.int_truediv _ _); cbn; [|discriminate]. now intros [= <- _].
  - destruct (is_Exception ex); cbn; [|discriminate]. now intros [= <- _].
Qed.

(** The pair at position [k] is the node at position [k] with the score
    of probe number [k] of the comprehension, sent to that node. *)
Lemma comprehension_probe_one_scored env config : forall ns w prefs w1,
  comprehension (probe_one env config) ns w = (Ok prefs, w1) ->
  forall k node s,
    prefs !! k = Some (node, s) ->
    ns !! k = Some node
    /\ scored_by (ping env (pings w + k) (Node.host node) (Node.port node)
                      (Config.timeout config))
                 (Node.bandwidth node) s.
Proof.
  induction ns as [|n ns IH]; intros w prefs w1; cbn [comprehension].
  - unfold ret. intros [= <- _] k node s Hk. now rewrite lookup_nil in Hk.
  - unfold bind at 1.
    destruct (probe_one env config n w) as [[p|ex] w'] eqn:E1; [|discriminate].
    unfold bind at 1.
    destruct (comprehension (probe_one env config) ns w') as [[ps|ex] w''] eqn:E2;
      [|discriminate].
    unfold ret. intros [= <- _] k node s Hk.
    pose proof (probe_one_scored env config n w p w' E1) as Hs.
    apply probe_one_ok in E1 as [E1 E1'].
    destruct k as [|k]; cbn in Hk |- *.
    + injection Hk as ->. cbn in E1, Hs. subst n.
      split; [reflexivity|]. now rewrite Nat.add_0_r.
    + destruct (IH w' ps w'' E2 k node s Hk) as [H1 H2]. split; [exact H1|].
      rewrite E1' in H2. now replace (pings w + S k)%nat with (S (pings w) + k)%nat by lia.
Qed.

(** X1. When the comprehension of [main] completes, it has probed every
    configured node exactly once and in the configured order: the score
    list is as long as the node list, its pair at position [k] is the
    node at position [k] of the configuration, and the score of that
    pair is the one [check_preference] derives from probe number [k] of
    the run, which was sent to that node's host and port.  As many
    probes were sent as there are nodes, and neither standard output nor
    the provider was touched. *)
Theorem probe_all_covers_nodes_in_order
    env (config : Config.t) (w : World) (prefs : list (Node.t * score)) (w1 : World) :
  probe_all env config w = (Ok prefs, w1) ->
  map fst prefs = Config.nodes config
  /\ (forall k node s,
        prefs !! k = Some (node, s) ->
        Config.nodes config !! k = Some node
        /\ scored_by (ping env (pings w + k) (Node.host node) (Node.port node)
                          (Config.timeout config))
                     (Node.bandwidth node) s)
  /\ pings w1 = (pings w + length (Config.nodes config))%nat
  /\ stdout w1 = stdout w
  /\ remote w1 = remote w
  /\ api_log w1 = api_log w.
Proof.
  intros H.
  pose proof (probe_all_dns_side env config w) as Hd.
  pose proof (probe_all_stdout env config w) as Ho.
  rewrite H in Hd, Ho. cbn in Hd, Ho. injection Hd as Hr Hl.
  pose proof (comprehension_probe_one_scored env config _ _ _ _ H) as Hk.
  apply comprehension_probe_one in H as [H1 H2].
  split; [exact H1|]. split; [exact Hk|]. split; [exact H2|].
  split; [exact Ho|]. split; [exact Hr|exact Hl].
Qed.

Lemma probe_all_covers_nodes_in_order_witness :
  map fst [(Scenario.node_a, IntZero); (Scenario.node_b, Float (PyFloat.lit 25))]
    = Config.nodes Scenario.config
  /\ (forall k node s,
        [(Scenario.node_a, IntZero); (Scenario.node_b, Float (PyFloat.lit 25))] !! k
          = Some (node, s) ->
        Config.nodes Scenario.config !! k = Some node
        /\ scored_by (ping Scenario.env_a_down (pings Scenario.world0 + k)
                          (Node.host node) (Node.port node)
                          (Config.timeout Scenario.config))
                     (Node.bandwidth node) s)
  /\ pings (mkWorld [] ["ping failed: timed out"%string] 2 Scenario.remote0 [])
     = (pings Scenario.world0 + length (Config.nodes Scenario.config))%nat
  /\ stdout (mkWorld [] ["ping failed: timed out"%string] 2 Scenario.remote0 [])
     = stdout Scenario.world0
  /\ remote (mkWorld [] ["ping failed: timed out"%string] 2 Scenario.remote0 [])
     = remote Scenario.world0
  /\ api_log (mkWorld [] ["ping failed: timed out"%string] 2 Scenario.remote0 [])
     = api_log Scenario.world0.
Proof.
  apply (probe_all_covers_nodes_in_order Scenario.env_a_down Scenario.config
           Scenario.world0).
  vm_compute. reflexivity.
Defined.

(** ** Selection, continued *)

(** X6. The node [main] selects is always one of the configured nodes,
    paired with the score its own probe gave: it stands at some position
    [k] of the configuration, the score list holds it at that position
    with the selected score, and that score is the one
    [check_preference] derives from probe number [k] of the run, sent
    to the selected node's host and port. *)
Theorem selected_node_is_configured
    env (config : Config.t) (w : World) (prefs : list (Node.t * score)) (w1 : World)
    (selected : Node.t) (pref : score) :
  probe_all env config w = (Ok prefs, w1) ->
  py_max score_gt snd prefs = Ok (selected, pref) ->
  exists k,
    Config.nodes config !! k = Some selected
    /\ prefs !! k = Some (selected, pref)
    /\ scored_by (ping env (pings w + k) (Node.host selected) (Node.port selected)
                      (Config.timeout config))
                 (Node.bandwidth selected) pref.
Proof.
  intros Hp Hmax. apply py_max_In in Hmax.
  apply list_elem_of_In, list_elem_of_lookup in Hmax as [k Hk].
  destruct (comprehension_probe_one_scored env config _ _ _ _ Hp k selected pref Hk)
    as [H1 H2].
  exists k. repeat split; assumption.
Qed.

Lemma selected_node_is_configured_witness :
  exists k,
    Config.nodes Scenario.config !! k = Some Scenario.node_b
    /\ [(Scenario.node_a, IntZero); (Scenario.node_b, Float (PyFloat.lit 25))] !! k
       = Some (Scenario.node_b, Float (PyFloat.lit 25))
    /\ scored_by (ping Scenario.env_a_down (pings Scenario.world0 + k)
                      (Node.host Scenario.node_b) (Node.port Scenario.node_b)
                      (Config.timeout Scenario.config))
                 (Node.bandwidth Scenario.node_b) (Float (PyFloat.lit 25)).
Proof.
  apply (selected_node_is_configured Scenario.env_a_down Scenario.config
           Scenario.world0 _ (mkWorld [] ["ping failed: timed out"%string] 2
                                 Scenario.remote0 [])).
  - vm_compute. reflexivity.
  - vm_compute. reflexivity.
Defined.

Lemma fold_max_nan (rest : list (Node.t * score)) (n : Node.t) :
  fold_left (max_step score_gt snd) rest (n, Float S754_nan) = (n, Float S754_nan).
Proof.
  induction rest as [|[m s] rest IH]; [reflexivity|].
  cbn [fold_left]. unfold max_step at 2. cbn [snd].
  replace (score_gt s (Float S754_nan)) with false; [exact IH|].
  unfold score_gt, PyFloat.gtb. cbn. reflexivity.
Qed.


(** ** Names, continued *)

Lemma append_nil_r (s : string) : (s ++ "")%string = s.
Proof. induction s as [|c s IH]; [reflexivity|]. now rewrite append_cons, IH. Qed.

Lemma append_assoc (a b c : string) : ((a ++ b) ++ c)%string = (a ++ (b ++ c))%string.
Proof. induction a as [|x a IH]; [reflexivity|]. now rewrite !append_cons, IH. Qed.

Lemma strip_dot_with_dot (p : string) : strip_dot (with_dot p) = p.
Proof.
  unfold with_dot. induction p as [|c p IH]; [reflexivity|].
  rewrite append_cons. cbn [strip_dot]. rewrite IH.
  destruct p; reflexivity.
Qed.

Lemma strip_dot_no_dot (p : string) : dangling_dot p = false -> strip_dot p = p.
Proof.
  induction p as [|c p IH]; [reflexivity|].
  rewrite dangling_dot_cons. cbn [strip_dot]. destruct p as [|d p].
  - now intros ->.
  - intros H. now rewrite IH.
Qed.

Lemma dangling_dot_append (x y : string) :
  y <> EmptyString -> dangling_dot (x ++ y) = dangling_dot y.
Proof.
  intros Hy. induction x as [|c x IH]; [reflexivity|].
  rewrite append_cons, dangling_dot_cons.
  destruct (x ++ y)%string eqn:E; [|exact IH].
  destruct x; [now destruct y | discriminate].
Qed.

Lemma join_cons (sep x : string) (l : list string) :
  l <> [] -> Str.join sep (x :: l) = (x ++ sep ++ Str.join sep l)%string.
Proof. destruct l; [congruence | reflexivity]. Qed.

(** Joining a joined group is joining its members in place. *)
Lemma join_flatten (sep : string) (inner : list string) :
  inner <> [] ->
  forall pre post,
    Str.join sep (pre ++ Str.join sep inner :: post) = Str.join sep (pre ++ inner ++ post).
Proof.
  intros Hi.
  assert (Hhead : forall post,
            Str.join sep (Str.join sep inner :: post) = Str.join sep (inner ++ post)).
  { induction inner as [|x inner IH]; [congruence|]. intros post.
    destruct inner as [|y inner].
    - reflexivity.
    - specialize (IH ltac:(discriminate)).
      rewrite (join_cons sep x (y :: inner)) by discriminate.
      change ((x :: y :: inner) ++ post) with (x :: ((y :: inner) ++ post)).
      rewrite (join_cons sep x ((y :: inner) ++ post)) by discriminate.
      rewrite <- IH. destruct post as [|p post].
      + reflexivity.
      + rewrite !join_cons by discriminate. now rewrite !append_assoc. }
  induction pre as [|a pre IH]; intros post; [apply Hhead|].
  cbn [app]. rewrite !join_cons.
  - now rewrite IH.
  - destruct pre, inner; cbn; congruence.
  - destruct pre; discriminate.
Qed.

(** X8. Trailing dots are optional, one per component: when no component
    ends with a dot, [concat_domain] is the plain join, and putting a
    dot after any of the components does not change the name built. *)
Theorem concat_domain_ignores_one_trailing_dot
    (parts : list string) (f : string -> string) :
  Forall (fun part => dangling_dot part = false) parts ->
  (forall part, f part = part \/ f part = with_dot part) ->
  concat_domain parts = Str.join "." parts
  /\ concat_domain (map f parts) = concat_domain parts.
Proof.
  intros Hparts Hf.
  assert (E : forall g, (forall part, g part = part \/ g part = with_dot part) ->
                        map strip_dot (map g parts) = parts).
  { intros g Hg. rewrite map_map.
    induction Hparts as [|p parts Hp _ IH]; [reflexivity|]. cbn. rewrite IH. f_equal.
    destruct (Hg p) as [-> | ->]; [now apply strip_dot_no_dot | apply strip_dot_with_dot]. }
  assert (C : forall l, concat_domain l = Str.join "." (map strip_dot l)).
  { intros l. unfold concat_domain. f_equal. apply map_ext. intros p. apply removesuffix_dot. }
  split.
  - rewrite C. f_equal. rewrite <- (map_id parts) at 1. apply (E (fun p => p)). now left.
  - rewrite !C, (E f Hf). f_equal. rewrite <- (map_id parts) at 2.
    symmetry. apply (E (fun p => p)). now left.
Qed.

Lemma concat_domain_ignores_one_trailing_dot_witness :
  concat_domain ["_minecraft._tcp"; "mc"; "example.com"]%string
    = Str.join "." ["_minecraft._tcp"; "mc"; "example.com"]%string
  /\ concat_domain (map (fun p => if String.eqb p "mc" then p else with_dot p)
                        ["_minecraft._tcp"; "mc"; "example.com"]%string)
     = concat_domain ["_minecraft._tcp"; "mc"; "example.com"]%string.
Proof.
  apply (concat_domain_ignores_one_trailing_dot
           ["_minecraft._tcp"; "mc"; "example.com"]%string
           (fun p => if String.eqb p "mc" then p else with_dot p)).
  - repeat constructor.
  - intros p. destruct (String.eqb p "mc"); [now left | now right].
Defined.

(** X9. Names nest as [main] nests them: a component that is itself
    the result of [concat_domain], not ending with a dot, can be replaced
    by the components it was built from.  So the alias of a node is
    ["_minecraft._tcp"], the node's subdomain, the base subdomain and the
    zone name, joined. *)
Theorem concat_domain_nested (pre inner post : list string) :
  inner <> [] ->
  dangling_dot (concat_domain inner) = false ->
  concat_domain (pre ++ concat_domain inner :: post)
  = concat_domain (pre ++ inner ++ post).
Proof.
  intros Hi Hd.
  assert (C : forall l, concat_domain l = Str.join "." (map strip_dot l)).
  { intros l. unfold concat_domain. f_equal. apply map_ext. intros p. apply removesuffix_dot. }
  rewrite (C (pre ++ concat_domain inner :: post)), (C (pre ++ inner ++ post)).
  rewrite !map_app. cbn [map]. rewrite (strip_dot_no_dot _ Hd), (C inner).
  apply join_flatten. destruct inner; [congruence | discriminate].
Qed.

Lemma concat_domain_nested_witness :
  concat_domain (["_minecraft._tcp"%string]
                   ++ concat_domain ["a"%string; "mc."%string] :: ["example.com."%string])
  = concat_domain (["_minecraft._tcp"%string]
                     ++ ["a"%string; "mc."%string] ++ ["example.com."%string]).
Proof.
  apply (concat_domain_nested ["_minecraft._tcp"%string] ["a"; "mc."]%string
           ["example.com."%string]).
  - discriminate.
  - reflexivity.
Defined.

(** ** Validation, continued *)

Lemma split_two_contains (c : ascii) (s : string) :
  (2 <= length (Str.split c s))%nat -> Str.contains c s = true.
Proof.
  induction s as [|a s IH]; cbn [Str.split Str.contains]; [cbn; lia|].
  destruct (Ascii.eqb a c); [reflexivity|].
  destruct (split_cons c s) as (hd & tl & E). rewrite E in *. cbn in *. exact IH.
Qed.

Lemma partition_contains (c d : ascii) (s : string) :
  Str.contains d (fst (fst (Str.partition c s))) = true -> Str.contains d s = true.
Proof.
  induction s as [|a s IH]; cbn [Str.partition]; [easy|].
  destruct (Ascii.eqb a c); [discriminate|].
  destruct (Str.partition c s) as [[x found] y]. cbn in *.
  destruct (Ascii.eqb a d); [reflexivity | exact IH].
Qed.

Lemma v6_needs_colon (s : string) (a : ipaddress.address) :
  ipaddress.v6_init s = Ok a -> Str.contains ":" s = true.
Proof.
  unfold ipaddress.v6_init, ipaddress._split_scope_id.
  destruct (Str.contains "/" s); [discriminate|].
  pose proof (partition_contains "%" ":" s) as Hp.
  destruct (Str.partition "%" s) as [[addr sep] scope]. cbn [fst] in Hp.
  assert (G : forall z, ipaddress.v6_int_from_string addr = Ok z ->
                        Str.contains ":" s = true).
  { intros z. unfold ipaddress.v6_int_from_string.
    destruct (String.eqb addr ""); [discriminate|].
    destruct (length (Str.split ":" addr) <? 3)%nat eqn:El; [discriminate|].
    intros _. apply Hp, split_two_contains. apply Nat.ltb_ge in El. lia. }
  destruct (negb sep).
  - destruct (ipaddress.v6_int_from_string addr) as [z|e]; [|discriminate].
    intros _. now apply (G z).
  - destruct (String.eqb scope "" || Str.contains "%" scope); [discriminate|].
    destruct (ipaddress.v6_int_from_string addr) as [z|e]; [|discriminate].
    intros _. now apply (G z).
Qed.

Lemma parse_all_ok (f : string -> result Z) (l : list string) (vs : list Z) :
  ipaddress.parse_all f l = Ok vs -> Forall (fun x => is_Ok (f x) = true) l.
Proof.
  revert vs. induction l as [|x l IH]; intros vs; cbn; [constructor|].
  destruct (f x) eqn:E; [|discriminate].
  destruct (ipaddress.parse_all f l); [|discriminate].
  intros _. constructor; [now rewrite E | eapply IH; reflexivity].
Qed.

Lemma parse_octet_digits (o : string) :
  is_Ok (ipaddress._parse_octet o) = true -> Str.all ipaddress.is_digit o = true.
Proof.
  unfold ipaddress._parse_octet.
  destruct (String.eqb o ""); [discriminate|].
  destruct (Str.all ipaddress.is_digit o); [reflexivity | discriminate].
Qed.

Lemma all_of_split (p : ascii -> bool) (c : ascii) (s : string) :
  Forall (fun x => Str.all p x = true) (Str.split c s) ->
  Str.all (fun a => p a || Ascii.eqb a c) s = true.
Proof.
  unfold Str.all. induction s as [|a s IH]; [reflexivity|].
  cbn [Str.split list_ascii_of_string forallb].
  destruct (Ascii.eqb a c) eqn:E.
  - intros H. apply Forall_cons in H as [_ H]. rewrite orb_true_r. now apply IH.
  - destruct (split_cons c s) as (hd & tl & Es). rewrite Es in *.
    intros H. apply Forall_cons in H as [Hh Ht]. cbn in Hh.
    apply andb_true_iff in Hh as [Ha Hh]. rewrite Ha. cbn.
    apply IH. now constructor.
Qed.

Lemma v4_only_digits_and_dots (s : string) (z : Z) :
  ipaddress.v4_init s = Ok z -> Str.all digit_or_dot s = true.
Proof.
  unfold ipaddress.v4_init, ipaddress.v4_int_from_string.
  destruct (Str.contains "/" s); [discriminate|].
  destruct (String.eqb s ""); [discriminate|].
  destruct (negb _); [discriminate|].
  destruct (ipaddress.parse_all ipaddress._parse_octet (Str.split "." s)) eqn:E;
    [|discriminate].
  intros _. apply parse_all_ok in E.
  apply (all_of_split ipaddress.is_digit "." s).
  eapply Forall_impl; [exact E|]. intros o. apply parse_octet_digits.
Qed.

(** X10. The host validator never rejects an ordinary name: a host
    without ":" that has a character other than a digit or a dot is
    returned unchanged, and a node with such a host passes
    validation. *)
Theorem check_host_accepts_names (node : Node.t) :
  Str.contains ":" (Node.host node) = false ->
  Str.all digit_or_dot (Node.host node) = false ->
  Node.check_host (Node.host node) = Ok (Node.host node)
  /\ Node.validate node = Ok node.
Proof.
  intros Hc Hd.
  assert (H : Node.check_host (Node.host node) = Ok (Node.host node)).
  { unfold Node.check_host.
    destruct (ipaddress.ip_address (Node.host node)) as [a|ex] eqn:E.
    - exfalso. unfold ipaddress.ip_address in E.
      destruct (ipaddress.v4_init (Node.host node)) as [z|e4] eqn:E4.
      + apply v4_only_digits_and_dots in E4. congruence.
      + destruct (ipaddress.v6_init (Node.host node)) as [a6|e6] eqn:E6; [|discriminate].
        apply v6_needs_colon in E6. congruence.
    - now rewrite (ip_address_raises_ValueError _ _ E). }
  split; [exact H|].
  unfold Node.validate, field_validator. rewrite H. now destruct node.
Qed.

Lemma check_host_accepts_names_witness :
  Node.check_host (Node.host Scenario.node_a) = Ok (Node.host Scenario.node_a)
  /\ Node.validate Scenario.node_a = Ok Scenario.node_a.
Proof.
  apply (check_host_accepts_names Scenario.node_a).
  - reflexivity.
  - reflexivity.
Defined.

(** X11. [read_config] changes nothing in the world.  The configuration
    it returns is the decoded content of the file, unchanged by the
    validators, with pairwise distinct subdomains and no host that parses
    as an IP address; an error of reading or decoding the file reaches
    the caller as it is. *)
Theorem read_config_returns_decoded env (w : World) :
  snd (read_config env w) = w
  /\ (forall config,
        fst (read_config env w) = Ok config ->
        config_file env = Ok config
        /\ NoDup (map Node.subdomain (Config.nodes config))
        /\ Forall (fun n => is_Ok (ipaddress.ip_address (Node.host n)) = false)
                  (Config.nodes config))
  /\ (forall ex, config_file env = Err ex -> fst (read_config env w) = Err ex).
Proof.
  unfold read_config, lift, raise.
  destruct (config_file env) as [raw|e]; cbn [fst snd].
  - split; [reflexivity|]. split; [|discriminate].
    intros config H. pose proof (Config_validate_ok raw config H). subst raw.
    split; [reflexivity|]. apply Config_validate_is_Ok. now rewrite H.
  - split; [reflexivity|]. split; [discriminate | congruence].
Qed.

(** ** Reconciliation, continued *)

(** Every way a call of [update_record] can end: it fails and the
    provider's state is what it was, or the zone was found, the call
    returned and the state is the reconciled one.  Either way the log
    grew by at most three requests. *)
Lemma update_record_outcomes env c zone_id subdomain host port w :
  let r := fst (update_record env c zone_id subdomain host port w) in
  let w' := snd (update_record env c zone_id subdomain host port w) in
  (exists evs, api_log w' = api_log w ++ evs
               /\ forallb is_request evs = true /\ (length evs <= 3)%nat)
  /\ ((exists ex, r = Err ex /\ remote w' = remote w)
      \/ (exists zone,
            Cloudflare.lookup_zone zone_id (zones (remote w)) = Some (Some zone)
            /\ r = Ok tt
            /\ remote w' =
                 reconciled (remote w) zone_id
                   (concat_domain ["_minecraft._tcp"%string; subdomain; Zone.name zone])
                   (Data.mk host port 0 0))).
Proof.
  cbn zeta.
  destruct (api_fault env (length (api_log w))) eqn:F0.
  { unfold update_record, bind, Cloudflare.zones_get, Cloudflare.request.
    rewrite F0. cbn. split; [|left; eauto].
    eexists. split; [reflexivity|]. cbn. split; [reflexivity | lia]. }
  destruct (Cloudflare.lookup_zone zone_id (zones (remote w))) as [[zone|]|] eqn:Hz.
  2,3: unfold update_record, bind, Cloudflare.zones_get, raise;
       rewrite (request_served env _ _ w F0), Hz; cbn;
       (split; [eexists; split; [reflexivity|]; cbn; split; [reflexivity | lia]
               | left; eauto]).
  destruct (api_fault env (S (length (api_log w)))) eqn:F1.
  { unfold update_record, bind, Cloudflare.zones_get, print, Cloudflare.records_list.
    rewrite (request_served env _ _ w F0), Hz. cbn [fst snd].
    unfold Cloudflare.request. cbn [api_log].
    rewrite length_app, Nat.add_1_r, F1. cbn [fst snd api_log remote].
    split; [|left; eauto].
    exists [ZonesGet zone_id;
            RecordsList zone_id
              (concat_domain ["_minecraft._tcp"%string; subdomain; Zone.name zone]) "SRV" 1].
    split; [now rewrite <- app_assoc|]. cbn. split; [reflexivity | lia]. }
  rewrite (update_record_until_commit env c zone_id subdomain host port w zone Hz F0 F1).
  unfold reconciled.
  set (fqdn := concat_domain _). set (data := Data.mk _ _ _ _). clear F0 F1.
  assert (Hlog : forall ev,
             is_request ev = true ->
             exists evs,
               ((api_log w ++ [ZonesGet zone_id]) ++ [RecordsList zone_id fqdn "SRV" 1])
                 ++ [ev] = api_log w ++ evs
               /\ forallb is_request evs = true /\ (length evs <= 3)%nat).
  { intros ev Hev. exists [ZonesGet zone_id; RecordsList zone_id fqdn "SRV" 1; ev].
    split; [now rewrite <- !app_assoc|]. cbn. rewrite Hev. split; [reflexivity | lia]. }
  destruct (listing (remote w) zone_id fqdn) as [|first rest] eqn:El;
    unfold bind, Cloudflare.records_create, Cloudflare.records_update, print,
      Cloudflare.request;
    cbn [api_log remote stdout stderr pings];
    match goal with
    | |- context [api_fault env (length ?l)] => destruct (api_fault env (length l))
    end; cbn [fst snd api_log remote];
    try rewrite (listing_owned _ _ _ _ _ El); cbn [fst snd api_log remote];
    (split; [apply Hlog; reflexivity|]).
  - left. eauto.
  - right. exists zone. fold fqdn. rewrite El. repeat split.
  - left. eauto.
  - right. exists zone. fold fqdn. rewrite El. repeat split.
Qed.

Lemma update_record_lookup_fails env c zone_id subdomain host port w :
  api_fault env (length (api_log w)) = true ->
  update_record env c zone_id subdomain host port w =
    (Err (Raise APIError "request failed"),
     mkWorld (stdout w) (stderr w) (pings w) (remote w) (api_log w ++ [ZonesGet zone_id])).
Proof.
  intros F0. unfold update_record, bind, Cloudflare.zones_get, Cloudflare.request.
  now rewrite F0.
Qed.

(** X12. A call of [update_record] sends its one write request last,
    after the zone lookup and the listing were both served.  So a call
    that raises has either sent no write at all (the zone lookup, the
    missing zone or the listing failed), and then the provider's records
    are exactly as they were, or it has sent exactly one write, as its
    third and last request, and it is that write which failed.  What the
    provider did with a write it answered with an error is not claimed. *)
Theorem update_record_fails_before_or_at_write
    env (c : Cloudflare.t) (zone_id subdomain host : string) (port : Z)
    (w : World) (ex : exn) :
  fst (update_record env c zone_id subdomain host port w) = Err ex ->
  exists evs,
    api_log (snd (update_record env c zone_id subdomain host port w)) = api_log w ++ evs
    /\ ((existsb is_mutation evs = false
         /\ remote (snd (update_record env c zone_id subdomain host port w)) = remote w)
        \/ (exists zone ev,
              Cloudflare.lookup_zone zone_id (zones (remote w)) = Some (Some zone)
              /\ evs = [ZonesGet zone_id;
                        RecordsList zone_id
                          (concat_domain
                             ["_minecraft._tcp"%string; subdomain; Zone.name zone])
                          "SRV" 1;
                        ev]
              /\ is_mutation ev = true
              /\ api_fault env (S (S (length (api_log w)))) = true
              /\ ex = Raise APIError "request failed")).
Proof.
  destruct (api_fault env (length (api_log w))) eqn:F0.
  { rewrite (update_record_lookup_fails env c zone_id subdomain host port w F0).
    cbn. intros _. exists [ZonesGet zone_id]. split; [reflexivity|]. left. now split. }
  destruct (Cloudflare.lookup_zone zone_id (zones (remote w))) as [[zone|]|] eqn:Hz.
  2,3: unfold update_record, bind, Cloudflare.zones_get, raise;
       rewrite (request_served env _ _ w F0), Hz; cbn; intros _;
       exists [ZonesGet zone_id]; (split; [reflexivity|]); left; now split.
  destruct (api_fault env (S (length (api_log w)))) eqn:F1.
  { unfold update_record, bind, Cloudflare.zones_get, print, Cloudflare.records_list.
    rewrite (request_served env _ _ w F0), Hz. cbn [fst snd].
    unfold Cloudflare.request. cbn [api_log].
    rewrite length_app, Nat.add_1_r, F1. cbn [fst snd api_log remote]. intros _.
    exists [ZonesGet zone_id;
            RecordsList zone_id
              (concat_domain ["_minecraft._tcp"%string; subdomain; Zone.name zone]) "SRV" 1].
    split; [now rewrite <- app_assoc|]. left. now split. }
  rewrite (update_record_until_commit env c zone_id subdomain host port w zone Hz F0 F1).
  set (fqdn := concat_domain _). set (data := Data.mk _ _ _ _). clear F0 F1.
  assert (Hlen : length ((api_log w ++ [ZonesGet zone_id])
                           ++ [RecordsList zone_id fqdn "SRV" 1])
                 = S (S (length (api_log w)))).
  { rewrite !length_app. cbn. lia. }
  destruct (listing (remote w) zone_id fqdn) as [|first rest] eqn:El;
    unfold bind, Cloudflare.records_create, Cloudflare.records_update, print,
      Cloudflare.request;
    cbn [api_log remote stdout stderr pings];
    rewrite Hlen;
    destruct (api_fault env (S (S (length (api_log w))))) eqn:F2;
    cbn [fst snd api_log remote];
    try rewrite (listing_owned _ _ _ _ _ El); cbn [fst snd api_log remote];
    try discriminate;
    intros [= <-];
    (eexists; split; [rewrite <- !app_assoc; reflexivity|]);
    right; exists zone; eexists; repeat split.
Qed.

Lemma update_record_fails_before_or_at_write_witness :
  exists evs,
    api_log (snd (update_record
                    (mkEnv (Ok Scenario.config) (fun _ _ _ _ => Ok (PyFloat.lit 1))
                           (fun k => Nat.eqb k 1))
                    Scenario.cloudflare "zone-1" "a.mc" "a.example.com" 25565
                    Scenario.world0))
      = api_log Scenario.world0 ++ evs
    /\ ((existsb is_mutation evs = false
         /\ remote (snd (update_record
                           (mkEnv (Ok Scenario.config)
                                  (fun _ _ _ _ => Ok (PyFloat.lit 1))
                                  (fun k => Nat.eqb k 1))
                           Scenario.cloudflare "zone-1" "a.mc" "a.example.com" 25565
                           Scenario.world0))
            = remote Scenario.world0)
        \/ (exists zone ev,
              Cloudflare.lookup_zone "zone-1" (zones (remote Scenario.world0))
                = Some (Some zone)
              /\ evs = [ZonesGet "zone-1";
                        RecordsList "zone-1"
                          (concat_domain
                             ["_minecraft._tcp"%string; "a.mc"%string; Zone.name zone])
                          "SRV" 1;
                        ev]
              /\ is_mutation ev = true
              /\ api_fault (mkEnv (Ok Scenario.config)
                                  (fun _ _ _ _ => Ok (PyFloat.lit 1))
                                  (fun k => Nat.eqb k 1))
                           (S (S (length (api_log Scenario.world0)))) = true
              /\ Raise APIError "request failed" = Raise APIError "request failed")).
Proof.
  apply (update_record_fails_before_or_at_write
           (mkEnv (Ok Scenario.config) (fun _ _ _ _ => Ok (PyFloat.lit 1))
                  (fun k => Nat.eqb k 1))
           Scenario.cloudflare "zone-1" "a.mc" "a.example.com" 25565 Scenario.world0
           (Raise APIError "request failed")).
  vm_compute. reflexivity.
Defined.

(** X13. Without a zone nothing else is asked of the provider: when the
    lookup fails, or answers with nothing, [update_record] raises (an
    [AssertionError] in the second case) after that single request,
    before printing anything. *)
Theorem update_record_stops_without_zone
    env (c : Cloudflare.t) (zone_id subdomain host : string) (port : Z) (w : World) :
  api_fault env (length (api_log w)) = true
  \/ (forall zone,
        Cloudflare.lookup_zone zone_id (zones (remote w)) <> Some (Some zone)) ->
  exists ex,
    update_record env c zone_id subdomain host port w =
      (Err ex, mkWorld (stdout w) (stderr w) (pings w) (remote w)
                       (api_log w ++ [ZonesGet zone_id]))
    /\ (api_fault env (length (api_log w)) = false ->
        Cloudflare.lookup_zone zone_id (zones (remote w)) = Some None ->
        ex = Raise AssertionError "got none when get zone info.").
Proof.
  intros H.
  destruct (api_fault env (length (api_log w))) eqn:F0.
  - rewrite (update_record_lookup_fails env c zone_id subdomain host port w F0).
    eexists. split; [reflexivity | discriminate].
  - destruct H as [H|H]; [discriminate|].
    unfold update_record, bind, Cloudflare.zones_get, raise.
    rewrite (request_served env _ _ w F0).
    destruct (Cloudflare.lookup_zone zone_id (zones (remote w))) as [[zone|]|] eqn:Hz;
      [now destruct (H zone) | |]; cbn;
      (eexists; split; [reflexivity|]; intros _; congruence).
Qed.

Lemma update_record_stops_without_zone_witness :
  exists ex,
    update_record Scenario.env_up Scenario.cloudflare "zone-2" "a.mc" "a.example.com"
      25565
      (initial_world (mkRemote [("zone-2"%string, None)] [] 0)) =
      (Err ex, mkWorld [] [] 0 (mkRemote [("zone-2"%string, None)] [] 0)
                       [ZonesGet "zone-2"])
    /\ (api_fault Scenario.env_up 0 = false ->
        Cloudflare.lookup_zone "zone-2" [("zone-2"%string, None)] = Some None ->
        ex = Raise AssertionError "got none when get zone info.").
Proof.
  apply (update_record_stops_without_zone Scenario.env_up Scenario.cloudflare
           "zone-2" "a.mc" "a.example.com" 25565
           (initial_world (mkRemote [("zone-2"%string, None)] [] 0))).
  right. intros zone. vm_compute. discriminate.
Defined.

Lemma overwrite_keeps_ids recs zone_id (R : DnsRecord.t) i :
  DnsRecord.id R = i ->
  map DnsRecord.id (map (fun x => if Cloudflare.owns i zone_id x then R else x) recs)
  = map DnsRecord.id recs.
Proof.
  intros HR. rewrite map_map. apply map_ext. intros x.
  unfold Cloudflare.owns. destruct (Nat.eqb_spec (DnsRecord.id x) i); cbn; [|reflexivity].
  destruct (String.eqb _ _); congruence.
Qed.

Lemma reconciled_ids r zone_id fqdn data :
  zones (reconciled r zone_id fqdn data) = zones r
  /\ (map DnsRecord.id (records (reconciled r zone_id fqdn data))
        = map DnsRecord.id (records r)
      /\ next_id (reconciled r zone_id fqdn data) = next_id r
      \/ map DnsRecord.id (records (reconciled r zone_id fqdn data))
           = map DnsRecord.id (records r) ++ [next_id r]
         /\ next_id (reconciled r zone_id fqdn data) = S (next_id r)).
Proof.
  unfold reconciled. destruct (listing r zone_id fqdn) as [|first rest]; cbn.
  - split; [reflexivity|]. right. now rewrite map_app.
  - split; [reflexivity|]. left. split; [|reflexivity].
    now apply overwrite_keeps_ids.
Qed.

Lemma Forall_ids (P : nat -> Prop) (l : list DnsRecord.t) :
  Forall (fun x => P (DnsRecord.id x)) l <-> Forall P (map DnsRecord.id l).
Proof.
  induction l as [|x l IH]; cbn; [split; constructor|].
  rewrite !Forall_cons, IH. reflexivity.
Qed.

(** X14. In every outcome, [update_record] leaves the zones alone, never
    removes a stored record and never changes an identity: the
    identities stored afterwards are those stored before, followed by at
    most one new one, the next identity.  Hence a provider whose
    identities are fresh and pairwise distinct stays so. *)
Theorem update_record_keeps_identities
    env (c : Cloudflare.t) (zone_id subdomain host : string) (port : Z) (w : World) :
  let r := remote w in
  let r' := remote (snd (update_record env c zone_id subdomain host port w)) in
  zones r' = zones r
  /\ (map DnsRecord.id (records r') = map DnsRecord.id (records r)
      \/ map DnsRecord.id (records r') = map DnsRecord.id (records r) ++ [next_id r])
  /\ (next_id r <= next_id r')%nat
  /\ (fresh_ids r -> fresh_ids r')
  /\ (fresh_ids r -> unique_ids r -> unique_ids r').
Proof.
  cbn zeta.
  destruct (update_record_outcomes env c zone_id subdomain host port w)
    as [_ [(e & _ & ->) | (zone & _ & _ & ->)]].
  { repeat split; auto. }
  set (fqdn := concat_domain _). set (data := Data.mk _ _ _ _).
  destruct (reconciled_ids (remote w) zone_id fqdn data) as [Hz [[Hi Hn] | [Hi Hn]]].
  - split; [exact Hz|]. split; [now left|]. split; [lia|].
    unfold fresh_ids, unique_ids. rewrite Hn, Hi.
    split; [|tauto].
    rewrite !(Forall_ids (fun i => (i < next_id (remote w))%nat)). now rewrite Hi.
  - split; [exact Hz|]. split; [now right|]. split; [lia|].
    unfold fresh_ids, unique_ids. rewrite Hn, Hi.
    rewrite (Forall_ids (fun i => (i < S (next_id (remote w)))%nat)),
            (Forall_ids (fun i => (i < next_id (remote w))%nat)), Hi.
    split.
    + intros Hf. apply Forall_app. split.
      * eapply Forall_impl; [exact Hf|]. cbn. intros; lia.
      * repeat constructor.
    + intros Hf Hu. apply NoDup_app. split; [exact Hu|]. split.
      * intros i Hin Hin'. apply list_elem_of_singleton in Hin'. subst i.
        rewrite Forall_forall in Hf. specialize (Hf _ Hin). cbn in Hf. lia.
      * apply NoDup_singleton.
Qed.

Lemma overwrite_others recs zone_id (R : DnsRecord.t) i :
  ~ In i (map DnsRecord.id recs) ->
  map (fun x => if Cloudflare.owns i zone_id x then R else x) recs = recs.
Proof.
  induction recs as [|x recs IH]; [reflexivity|]. cbn. intros H.
  rewrite IH by tauto. unfold Cloudflare.owns.
  destruct (Nat.eqb_spec (DnsRecord.id x) i); [tauto | reflexivity].
Qed.

(** With distinct identities the overwrite replaces the first listed
    record and nothing else. *)
Lemma overwrite_first_only recs zone_id fqdn data first rest :
  NoDup (map DnsRecord.id recs) ->
  List.filter (Cloudflare.matches zone_id fqdn "SRV") recs = first :: rest ->
  let ow := fun x => if Cloudflare.owns (DnsRecord.id first) zone_id x
                     then DnsRecord.mk (DnsRecord.id first) zone_id fqdn "SRV" data
                     else x in
  List.filter (Cloudflare.matches zone_id fqdn "SRV") (map ow recs)
    = DnsRecord.mk (DnsRecord.id first) zone_id fqdn "SRV" data :: rest
  /\ List.filter (fun x => negb (Cloudflare.matches zone_id fqdn "SRV" x)) (map ow recs)
     = List.filter (fun x => negb (Cloudflare.matches zone_id fqdn "SRV" x)) recs.
Proof.
  intros Hu Hf ow.
  assert (HR : Cloudflare.matches zone_id fqdn "SRV"
                 (DnsRecord.mk (DnsRecord.id first) zone_id fqdn "SRV" data) = true).
  { unfold Cloudflare.matches. cbn. now rewrite !String.eqb_refl. }
  induction recs as [|x recs IH]; [discriminate|].
  cbn [map List.filter] in *. apply NoDup_cons in Hu as [Hx Hu].
  rewrite list_elem_of_In in Hx.
  destruct (Cloudflare.matches zone_id fqdn "SRV" x) eqn:Em.
  - injection Hf as -> Hrest.
    assert (Ho : ow first = DnsRecord.mk (DnsRecord.id first) zone_id fqdn "SRV" data).
    { unfold ow, Cloudflare.owns, Cloudflare.matches in *. rewrite Nat.eqb_refl. cbn.
      now apply andb_true_iff in Em as [[-> _]%andb_true_iff _]. }
    rewrite Ho, HR. cbn [negb].
    unfold ow. rewrite (overwrite_others recs zone_id _ _ Hx).
    now rewrite Hrest.
  - assert (Hin : In first recs).
    { assert (H : In first (first :: rest)) by now left.
      rewrite <- Hf in H. now apply filter_In in H as [H _]. }
    assert (Ho : ow x = x).
    { unfold ow, Cloudflare.owns. destruct (Nat.eqb_spec (DnsRecord.id x) (DnsRecord.id first));
        [|reflexivity].
      exfalso. apply Hx. rewrite e. now apply in_map. }
    rewrite Ho, Em. cbn [negb]. destruct (IH Hu Hf) as [IH1 IH2].
    split; [exact IH1 | now rewrite IH2].
Qed.

(** X15. A reconciliation that returns changes the records of its own
    name only, and of those the first listed one only: with pairwise
    distinct identities, afterwards the SRV records of the name are one
    record carrying target = host, port = port, priority 0, weight 0,
    followed by whatever duplicates came after the first before the
    call, and every other stored record is untouched.  So a name with at
    most one record has exactly one afterwards. *)
Theorem update_record_touches_one_name
    env (c : Cloudflare.t) (zone_id subdomain host : string) (port : Z)
    (w : World) (zone : Zone.t) :
  Cloudflare.lookup_zone zone_id (zones (remote w)) = Some (Some zone) ->
  fst (update_record env c zone_id subdomain host port w) = Ok tt ->
  unique_ids (remote w) ->
  let fqdn := concat_domain ["_minecraft._tcp"%string; subdomain; Zone.name zone] in
  let r' := remote (snd (update_record env c zone_id subdomain host port w)) in
  (exists i,
     records_named r' zone_id fqdn =
       DnsRecord.mk i zone_id fqdn "SRV" (Data.mk host port 0 0)
         :: tl (records_named (remote w) zone_id fqdn))
  /\ records_elsewhere r' zone_id fqdn = records_elsewhere (remote w) zone_id fqdn
  /\ ((length (records_named (remote w) zone_id fqdn) <= 1)%nat ->
      length (records_named r' zone_id fqdn) = 1%nat).
Proof.
  intros Hz Hok Hu fqdn r'. unfold unique_ids in Hu.
  destruct (update_record_outcomes env c zone_id subdomain host port w)
    as [_ [(e & He & _) | (zone' & Hz' & _ & Hr)]]; [congruence|].
  rewrite Hz in Hz'. injection Hz' as <-.
  subst r'. rewrite Hr. fold fqdn. set (data := Data.mk _ _ _ _).
  assert (G : (exists i,
                 records_named (reconciled (remote w) zone_id fqdn data) zone_id fqdn =
                   DnsRecord.mk i zone_id fqdn "SRV" data
                     :: tl (records_named (remote w) zone_id fqdn))
              /\ records_elsewhere (reconciled (remote w) zone_id fqdn data) zone_id fqdn
                 = records_elsewhere (remote w) zone_id fqdn).
  { unfold reconciled, listing, records_named, records_elsewhere.
    destruct (List.filter (Cloudflare.matches zone_id fqdn "SRV") (records (remote w)))
      as [|first rest] eqn:El; cbn [firstn records tl].
    - assert (HR : Cloudflare.matches zone_id fqdn "SRV"
                     (DnsRecord.mk (next_id (remote w)) zone_id fqdn "SRV" data) = true).
      { unfold Cloudflare.matches. cbn. now rewrite !String.eqb_refl. }
      rewrite !List.filter_app, El. cbn [List.filter]. rewrite HR. cbn.
      split; [eexists; reflexivity | now rewrite app_nil_r].
    - destruct (overwrite_first_only _ zone_id fqdn data first rest Hu El) as [H1 H2].
      split; [exists (DnsRecord.id first); exact H1 | exact H2]. }
  destruct G as [[i Hi] He]. split; [exists i; exact Hi|]. split; [exact He|].
  rewrite Hi. destruct (records_named (remote w) zone_id fqdn) as [|x [|y l]];
    intros H; [reflexivity | reflexivity | cbn in H; lia].
Qed.

(** A zone with two colliding records of node a's alias and one record of
    another name. *)
Lemma update_record_touches_one_name_witness :
  let r := mkRemote [("zone-1"%string, Some (Zone.mk "example.com"))]
             [DnsRecord.mk 0 "zone-1" "_minecraft._tcp.a.mc.example.com" "SRV"
                (Data.mk "old.example.com" 1 5 5);
              DnsRecord.mk 1 "zone-1" "_minecraft._tcp.b.mc.example.com" "SRV"
                (Data.mk "b.example.com" 25565 0 0);
              DnsRecord.mk 2 "zone-1" "_minecraft._tcp.a.mc.example.com" "SRV"
                (Data.mk "dup.example.com" 2 0 0)] 3 in
  let r' := remote (snd (update_record Scenario.env_up Scenario.cloudflare "zone-1"
                           "a.mc" "a.example.com" 25565 (initial_world r))) in
  records_named r' "zone-1" "_minecraft._tcp.a.mc.example.com" =
    [DnsRecord.mk 0 "zone-1" "_minecraft._tcp.a.mc.example.com" "SRV"
       (Data.mk "a.example.com" 25565 0 0);
     DnsRecord.mk 2 "zone-1" "_minecraft._tcp.a.mc.example.com" "SRV"
       (Data.mk "dup.example.com" 2 0 0)]
  /\ records_elsewhere r' "zone-1" "_minecraft._tcp.a.mc.example.com"
     = records_elsewhere r "zone-1" "_minecraft._tcp.a.mc.example.com".
Proof.
  intros r r'.
  destruct (update_record_touches_one_name Scenario.env_up Scenario.cloudflare
              "zone-1" "a.mc" "a.example.com" 25565 (initial_world r)
              (Zone.mk "example.com"))
    as ([i Hi] & He & _).
  - reflexivity.
  - vm_compute. reflexivity.
  - apply (bool_decide_unpack _). vm_compute. reflexivity.
  - split; [vm_compute; reflexivity | exact He].
Defined.

(** ** The mutation phase of [main] *)

Lemma for_each_app {A} (body : A -> M unit) (l1 l2 : list A) (w : World) :
  for_each (l1 ++ l2) body w = bind (for_each l1 body) (fun _ => for_each l2 body) w.
Proof.
  revert w. induction l1 as [|x l1 IH]; intros w; [reflexivity|].
  cbn [app for_each]. unfold bind.
  destruct (body x w) as [[[]|ex] w1]; [|reflexivity].
  rewrite IH. reflexivity.
Qed.

Lemma for_each_map {A B} (g : A -> B) (body : B -> M unit) (l : list A) (w : World) :
  for_each (map g l) body w = for_each l (fun x => body (g x)) w.
Proof.
  revert w. induction l as [|x l IH]; intros w; [reflexivity|].
  cbn [map for_each]. unfold bind. destruct (body (g x) w) as [[[]|ex] w1]; [|reflexivity].
  apply IH.
Qed.

Lemma for_each_one {A} (body : A -> M unit) (x : A) (w : World) :
  for_each [x] body w = body x w.
Proof.
  cbn [for_each]. unfold bind, ret. now destruct (body x w) as [[[]|ex] w1].
Qed.

(** The [with] block of [main] is one loop over its targets. *)
Lemma publish_as_targets env config selected c w :
  publish env config selected c w =
    for_each (targets config selected) (reconcile env c (Config.zone_id config)) w.
Proof.
  unfold publish, targets. rewrite for_each_app.
  unfold bind. rewrite for_each_map. cbn [reconcile].
  destruct (for_each (Config.nodes config) _ w) as [[[]|ex] w1]; [|reflexivity].
  now rewrite for_each_one.
Qed.

(** One reconciliation whose three requests are served. *)
Lemma reconcile_one env c zone_id (t : target) w zone :
  Cloudflare.lookup_zone zone_id (zones (remote w)) = Some (Some zone) ->
  api_fault env (length (api_log w)) = false ->
  api_fault env (S (length (api_log w))) = false ->
  api_fault env (S (S (length (api_log w)))) = false ->
  exists w1 ev,
    reconcile env c zone_id t w = (Ok tt, w1)
    /\ api_log w1 =
         api_log w ++ [ZonesGet zone_id;
                       RecordsList zone_id (fst (target_write (Zone.name zone) t)) "SRV" 1;
                       ev]
    /\ written ev = Some (target_write (Zone.name zone) t)
    /\ is_request ev = true
    /\ zones (remote w1) = zones (remote w)
    /\ stderr w1 = stderr w
    /\ pings w1 = pings w
    /\ exists lines, stdout w1 = stdout w ++ lines.
Proof.
  intros Hz F0 F1 F2. destruct t as [[subdomain host] port]. cbn [reconcile target_write fst].
  rewrite (update_record_until_commit env c zone_id subdomain host port w zone Hz F0 F1).
  set (fqdn := concat_domain _). set (data := Data.mk _ _ _ _). clearbody fqdn data.
  assert (F2' : api_fault env
                  (length ((api_log w ++ [ZonesGet zone_id])
                             ++ [RecordsList zone_id fqdn "SRV" 1])) = false).
  { rewrite !length_app. cbn [length].
    now replace (length (api_log w) + 1 + 1)%nat with (S (S (length (api_log w)))) by lia. }
  destruct (listing (remote w) zone_id fqdn) as [|first rest] eqn:El;
    unfold bind, Cloudflare.records_create, Cloudflare.records_update, print;
    rewrite request_served by exact F2';
    cbn [fst snd remote api_log stdout stderr pings];
    try rewrite (listing_owned _ _ _ _ _ El);
    cbn [fst snd remote api_log stdout stderr pings zones];
    do 2 eexists;
    (split; [reflexivity|]);
    (split; [cbn [api_log]; rewrite <- !app_assoc; reflexivity|]);
    cbn; repeat split; eexists; rewrite <- app_assoc; reflexivity.
Qed.

(** A run of reconciliations whose requests are all served: three
    requests each, one of them a write, in the order of the targets. *)
Lemma reconcile_all env c zone_id zone : forall (ts : list target) w,
  Cloudflare.lookup_zone zone_id (zones (remote w)) = Some (Some zone) ->
  (forall k, (length (api_log w) <= k < length (api_log w) + 3 * length ts)%nat ->
             api_fault env k = false) ->
  exists w' evs,
    for_each ts (reconcile env c zone_id) w = (Ok tt, w')
    /\ api_log w' = api_log w ++ evs
    /\ omap written evs = map (target_write (Zone.name zone)) ts
    /\ length evs = (3 * length ts)%nat
    /\ forallb is_request evs = true
    /\ zones (remote w') = zones (remote w)
    /\ stderr w' = stderr w
    /\ pings w' = pings w
    /\ exists lines, stdout w' = stdout w ++ lines.
Proof.
  induction ts as [|t ts IH]; intros w Hz Hf.
  - exists w, []. cbn. rewrite app_nil_r. repeat split. exists []. now rewrite app_nil_r.
  - cbn [length] in Hf.
    destruct (reconcile_one env c zone_id t w zone Hz)
      as (w1 & ev & E1 & Hl1 & Hw1 & Hr1 & Hz1 & He1 & Hp1 & lines1 & Ho1);
      try (apply Hf; lia).
    destruct (IH w1) as (w' & evs & E & Hl & Hw & Hn & Hr & Hz' & He & Hp & lines & Ho).
    { now rewrite Hz1. }
    { intros k Hk. apply Hf. rewrite Hl1, length_app in Hk. cbn [length] in Hk. lia. }
    exists w', ([ZonesGet zone_id;
                 RecordsList zone_id (fst (target_write (Zone.name zone) t)) "SRV" 1; ev]
                  ++ evs).
    split; [cbn [for_each]; unfold bind; now rewrite E1|].
    split; [now rewrite Hl, Hl1, <- app_assoc|].
    split; [cbn [app omap list_omap]; cbn; rewrite Hw1; cbn; now rewrite Hw|].
    split; [rewrite length_app, Hn; cbn [length]; lia|].
    split; [rewrite forallb_app, Hr; cbn; now rewrite Hr1|].
    split; [congruence|]. split; [congruence|]. split; [congruence|].
    exists (lines1 ++ lines). now rewrite Ho, Ho1, <- app_assoc.
Qed.

(** [main] once a node is selected: the client is opened, the [with]
    block runs, the client is closed, and the block's outcome is
    [main]'s. *)
Lemma main_reaches_publish env raw config w prefs w1 selected pref :
  config_file env = Ok raw -> Config.validate raw = Ok config ->
  probe_all env config w = (Ok prefs, w1) ->
  py_max score_gt snd prefs = Ok (selected, pref) ->
  score_eq0 pref = false ->
  let w2 := mkWorld (stdout w ++ [Tested prefs; Selected selected]) (stderr w1) (pings w1)
              (remote w) (api_log w ++ [ClientEnter (Config.api_token config)]) in
  let out := publish env config selected (Cloudflare.mk (Config.api_token config)) w2 in
  main env w =
    (fst out,
     mkWorld (stdout (snd out)) (stderr (snd out)) (pings (snd out)) (remote (snd out))
             (api_log (snd out) ++ [ClientExit])).
Proof.
  intros Hf Hv Hp Hmax Hz w2 out. unfold main.
  rewrite (bind_ok _ _ _ _ _ (read_config_ok env raw config w Hf Hv)).
  rewrite (bind_ok _ _ _ _ _ Hp).
  pose proof (probe_all_dns_side env config w) as Hd.
  pose proof (probe_all_stdout env config w) as Ho.
  rewrite Hp in Hd, Ho. cbn in Hd, Ho. injection Hd as Hr Hl.
  unfold bind at 1. unfold print at 1. unfold bind at 1. unfold lift.
  rewrite Hmax. cbn beta iota. rewrite Hz.
  unfold bind at 1. unfold print at 1. unfold Cloudflare.scoped.
  unfold bind, Cloudflare.log, try, lift.
  cbn [stdout stderr pings remote api_log].
  rewrite Hr, Hl, Ho, <- app_assoc. cbn [app]. fold w2. fold out.
  destruct out as [r w3]. reflexivity.
Qed.

(** X16. When a node is selected with a score that does not compare
    equal to 0, the zone is found and no request fails, [main] returns
    after this exchange with the provider: the client is opened, every
    node's alias is reconciled in the order of the configuration and
    with the node's own host and port, the base subdomain is reconciled
    last with the selected node's host and port, and the client is
    closed; each reconciliation takes three requests, one of them a
    write.  Standard output starts with the audit block and the
    selection. *)
Theorem main_writes_aliases_then_winner
    env raw config (w : World) (prefs : list (Node.t * score)) (w1 : World)
    (selected : Node.t) (pref : score) (zone : Zone.t) :
  config_file env = Ok raw -> Config.validate raw = Ok config ->
  probe_all env config w = (Ok prefs, w1) ->
  py_max score_gt snd prefs = Ok (selected, pref) ->
  score_eq0 pref = false ->
  Cloudflare.lookup_zone (Config.zone_id config) (zones (remote w)) = Some (Some zone) ->
  (forall k, (length (api_log w) <= k)%nat -> api_fault env k = false) ->
  exists w' evs lines,
    main env w = (Ok tt, w')
    /\ api_log w' =
         api_log w ++ ClientEnter (Config.api_token config) :: evs ++ [ClientExit]
    /\ omap written evs =
         map (target_write (Zone.name zone)) (targets config selected)
    /\ length evs = (3 * (length (Config.nodes config) + 1))%nat
    /\ forallb is_request evs = true
    /\ stdout w' = stdout w ++ Tested prefs :: Selected selected :: lines
    /\ stderr w' = stderr w1.
Proof.
  intros Hf Hv Hp Hmax Hz Hzone Hfault.
  rewrite (main_reaches_publish env raw config w prefs w1 selected pref Hf Hv Hp Hmax Hz).
  rewrite publish_as_targets.
  set (w2 := mkWorld _ _ _ _ _).
  destruct (reconcile_all env (Cloudflare.mk (Config.api_token config))
              (Config.zone_id config) zone (targets config selected) w2)
    as (w3 & evs & E & Hl & Hw & Hn & Hr & _ & He & _ & lines & Ho).
  { exact Hzone. }
  { intros k Hk. apply Hfault. subst w2. cbn [api_log] in Hk.
    rewrite length_app in Hk. lia. }
  rewrite E. cbn [fst snd]. exists (mkWorld (stdout w3) (stderr w3) (pings w3) (remote w3)
                                      (api_log w3 ++ [ClientExit])), evs, lines.
  split; [reflexivity|]. cbn [api_log stdout stderr].
  split; [rewrite Hl; subst w2; cbn [api_log]; now rewrite <- !app_assoc|].
  split; [exact Hw|].
  split; [rewrite Hn; unfold targets; rewrite length_app, length_map; cbn; lia|].
  split; [exact Hr|].
  split; [rewrite Ho; subst w2; cbn [stdout]; now rewrite <- app_assoc|].
  exact He.
Qed.

Lemma main_writes_aliases_then_winner_witness :
  exists w' evs lines,
    main Scenario.env_a_down Scenario.world0 = (Ok tt, w')
    /\ api_log w' =
         api_log Scenario.world0
           ++ ClientEnter (Config.api_token Scenario.config) :: evs ++ [ClientExit]
    /\ omap written evs =
         map (target_write "example.com") (targets Scenario.config Scenario.node_b)
    /\ length evs = (3 * (length (Config.nodes Scenario.config) + 1))%nat
    /\ forallb is_request evs = true
    /\ stdout w' =
         stdout Scenario.world0
           ++ Tested [(Scenario.node_a, IntZero); (Scenario.node_b, Float (PyFloat.lit 25))]
              :: Selected Scenario.node_b :: lines
    /\ stderr w' = ["ping failed: timed out"%string].
Proof.
  apply (main_writes_aliases_then_winner Scenario.env_a_down Scenario.config
           Scenario.config Scenario.world0
           [(Scenario.node_a, IntZero); (Scenario.node_b, Float (PyFloat.lit 25))]
           (mkWorld [] ["ping failed: timed out"%string] 2 Scenario.remote0 [])
           Scenario.node_b (Float (PyFloat.lit 25)) (Zone.mk "example.com")).
  - reflexivity.
  - vm_compute. reflexivity.
  - vm_compute. reflexivity.
  - vm_compute. reflexivity.
  - vm_compute. reflexivity.
  - reflexivity.
  - intros k _. reflexivity.
Defined.



Lemma for_each_log {A} (body : A -> M unit) :
  (forall x w, exists evs,
      api_log (snd (body x w)) = api_log w ++ evs /\ forallb is_request evs = true) ->
  forall l w, exists evs,
      api_log (snd (for_each l body w)) = api_log w ++ evs
      /\ forallb is_request evs = true.
Proof.
  intros Hb. induction l as [|x l IH]; intros w.
  - exists []. cbn. now rewrite app_nil_r.
  - cbn [for_each]. unfold bind. destruct (Hb x w) as (evs1 & H1 & R1).
    destruct (body x w) as [[[]|ex] w1]; cbn [snd] in *; [|eauto].
    destruct (IH w1) as (evs2 & H2 & R2).
    exists (evs1 ++ evs2). split; [now rewrite H2, H1, <- app_assoc|].
    now rewrite forallb_app, R1, R2.
Qed.

Lemma publish_log env config selected c w :
  exists evs,
    api_log (snd (publish env config selected c w)) = api_log w ++ evs
    /\ forallb is_request evs = true.
Proof.
  rewrite publish_as_targets. apply for_each_log.
  intros [[subdomain host] port] w0. cbn [reconcile].
  destruct (update_record_outcomes env c (Config.zone_id config) subdomain host port w0)
    as [(evs & H & R & _) _].
  eauto.
Qed.

(** X18. Whatever the environment does, [main] either makes no request
    and leaves the provider as it was, or opens the client once, makes
    requests through it, and closes it as the last thing it does: the
    client is closed on every way out of the [with] block, errors
    included. *)
Theorem main_always_closes_client env (w : World) :
  let w' := snd (main env w) in
  (api_log w' = api_log w /\ remote w' = remote w)
  \/ (exists token evs,
        api_log w' = api_log w ++ ClientEnter token :: evs ++ [ClientExit]
        /\ forallb is_request evs = true).
Proof.
  cbn zeta.
  destruct (config_file env) as [raw|e] eqn:Hf.
  2:{ left. unfold main, bind, read_config, raise. rewrite Hf. now split. }
  destruct (Config.validate raw) as [config|e] eqn:Hv.
  2:{ left. unfold main, bind, read_config, lift. rewrite Hf, Hv. now split. }
  pose proof (probe_all_dns_side env config w) as Hd.
  destruct (probe_all env config w) as [[prefs|e] w1] eqn:Hp; cbn [snd] in Hd;
    injection Hd as Hr Hl.
  2:{ left. unfold main.
      rewrite (bind_ok _ _ _ _ _ (read_config_ok env raw config w Hf Hv)).
      rewrite (bind_err _ _ _ _ _ Hp). now split. }
  destruct (py_max score_gt snd prefs) as [[selected pref]|e] eqn:Hmax.
  2:{ left. unfold main.
      rewrite (bind_ok _ _ _ _ _ (read_config_ok env raw config w Hf Hv)).
      rewrite (bind_ok _ _ _ _ _ Hp).
      unfold bind, print, lift. rewrite Hmax. now split. }
  destruct (score_eq0 pref) eqn:Hz.
  - left.
    rewrite (main_when_best_is_zero env raw config w prefs w1 selected pref
               Hf Hv Hp Hmax Hz).
    now split.
  - right.
    rewrite (main_reaches_publish env raw config w prefs w1 selected pref
               Hf Hv Hp Hmax Hz).
    cbn [snd api_log].
    destruct (publish_log env config selected (Cloudflare.mk (Config.api_token config))
                (mkWorld (stdout w ++ [Tested prefs; Selected selected]) (stderr w1)
                   (pings w1) (remote w)
                   (api_log w ++ [ClientEnter (Config.api_token config)])))
      as (evs & H & R).
    exists (Config.api_token config), evs. split; [|exact R].
    rewrite H. cbn [api_log]. now rewrite <- !app_assoc.
Qed.
